(** * FeatureGenerator: the learning-data frame accumulator of
      modules/planning/pipeline/feature_generator.cc

    A shallow embedding of the class [FeatureGenerator]: its members become a
    record, each method a function on that record, and what a method does to
    the outside world (log lines, files written) a list of effects returned
    next to the new state.  Undefined behaviour of the C++ code (popping an
    empty [std::list], a remainder by zero, following a dangling frame
    pointer) is [None]. *)

From Stdlib Require Import ZArith Lia DecimalString.
From Stdlib Require Import Floats.PrimFloat.
From stdpp Require Import base list option strings.

Local Open Scope Z_scope.

(** ** Protobuf messages

    Only the fields that feature_generator.cc reads or writes are kept.
    [double] is IEEE binary64, that is, Rocq's primitive [float], each
    operation rounded on its own.  The [float] fields of [Chassis] are kept at
    the same type: the code only copies them. *)

Module Point3D.
(** apollo.common.Point3D / PointENU: three doubles. *)
Record t := mk { x : float; y : float; z : float }.
End Point3D.

Module Pose.
Record t := mk {
  position : Point3D.t;
  heading : float;
  linear_velocity : Point3D.t;
  linear_acceleration : Point3D.t;
  angular_velocity : Point3D.t
}.
End Pose.

Module LocalizationEstimate.
Record t := mk { pose : Pose.t }.
End LocalizationEstimate.

Module Chassis.
(** apollo.canbus.Chassis; the gear position is kept as the enum's number. *)
Record t := mk {
  speed_mps : float;
  throttle_percentage : float;
  brake_percentage : float;
  steering_percentage : float;
  gear_location : Z
}.
End Chassis.

Module LocalizationFeature.
Record t := mk {
  position : Point3D.t;
  heading : float;
  linear_velocity : Point3D.t;
  linear_acceleration : Point3D.t;
  angular_velocity : Point3D.t
}.
End LocalizationFeature.

Module ChassisFeature.
Record t := mk {
  speed_mps : float;
  throttle_percentage : float;
  brake_percentage : float;
  steering_percentage : float;
  gear_location : Z
}.
End ChassisFeature.

Module PathPoint.
Record t := mk { x : float; y : float; z : float; theta : float }.
End PathPoint.

Module TrajectoryPoint.
Record t := mk { path_point : PathPoint.t; v : float; a : float }.
End TrajectoryPoint.

Module LearningDataFrame.
(** A sub-message that was never touched is [None]. *)
Record t := mk {
  localization_feature : option LocalizationFeature.t;
  chassis_feature : option ChassisFeature.t;
  label_trajectory_points : list TrajectoryPoint.t
}.

(** What [add_learning_data()] hands out: a cleared message. *)
Definition empty : t := mk None None [].

Definition set_localization_feature (lf : LocalizationFeature.t) (f : t) : t :=
  mk (Some lf) (chassis_feature f) (label_trajectory_points f).

Definition set_chassis_feature (cf : ChassisFeature.t) (f : t) : t :=
  mk (localization_feature f) (Some cf) (label_trajectory_points f).

(** [add_label_trajectory_points()] followed by the setters on the new
    element: the point goes at the end of the repeated field. *)
Definition add_label_trajectory_points (p : TrajectoryPoint.t) (f : t) : t :=
  mk (localization_feature f) (chassis_feature f) (label_trajectory_points f ++ [p]).
End LearningDataFrame.

(** [LearningData] is one repeated field, [learning_data]. *)
Abbreviation LearningData := (list LearningDataFrame.t).

(** ** Flags (the DEFINE_* lines 27-47) *)

Record Flags := {
  FLAGS_planning_data_dir : string;
  FLAGS_learning_data_frame_label_sample_interval : Z;
  FLAGS_learning_data_frame_num_per_file : Z;
  FLAGS_localization_sample_interval_for_trajectory_point : Z;
  FLAGS_localization_move_window_step : Z;
  FLAGS_enable_binary_learning_data : bool
}.

Definition default_flags : Flags := {|
  FLAGS_planning_data_dir := "/apollo/modules/planning/data/";
  FLAGS_learning_data_frame_label_sample_interval := 100;
  FLAGS_learning_data_frame_num_per_file := 100;
  FLAGS_localization_sample_interval_for_trajectory_point := 10;
  FLAGS_localization_move_window_step := 5;
  FLAGS_enable_binary_learning_data := true
|}.

(** ** The object and its effects *)

(** The members of [FeatureGenerator].  [learning_data_frame_] points into
    [learning_data_]: it is kept as the index of the element it points to, so
    that a write through the pointer is a write into the repeated field.  The
    two counters are declared in feature_generator.h, which is not among the
    sources; they are taken as integers that do not overflow. *)
Record FeatureGenerator := mkFeatureGenerator {
  learning_data_ : LearningData;
  learning_data_frame_ : option nat;
  localization_for_label_ : list LocalizationEstimate.t;
  learning_data_file_index_ : Z;
  total_learning_data_frame_num_ : Z
}.

(** Modelled from the spec: the member initialisers of feature_generator.h,
    which is not among the sources.  The window and the batch start empty, no
    frame is open, the file index starts at 0 and so does the running total. *)
Definition fresh_generator : FeatureGenerator :=
  mkFeatureGenerator [] None [] 0 0.

Inductive Effect :=
  | LogError (msg : string)
      (** [AERROR << msg] *)
  | LogInfo (msg : string) (n : Z)
      (** [AINFO << msg << n] *)
  | WriteFile (binary : bool) (file_name : string) (data : LearningData)
      (** [SetProtoToBinaryFile] when [binary], else [SetProtoToASCIIFile] *)
  | FrameClosed (frame : LearningDataFrame.t).
      (** not an output of the program: it records the frame that
          [learning_data_frame_] leaves behind at line 125 *)

Definition Outcome := option (FeatureGenerator * list Effect).

Definition nullptr_msg : string := "learning_data_frame_ pointer is nullptr".

(** ** Methods *)

(** Lines 57-58. [add_learning_data()] appends a cleared frame and returns its
    address. *)
Definition add_learning_data (g : FeatureGenerator) : FeatureGenerator :=
  mkFeatureGenerator
    (learning_data_ g ++ [LearningDataFrame.empty])
    (Some (length (learning_data_ g)))
    (localization_for_label_ g)
    (learning_data_file_index_ g)
    (total_learning_data_frame_num_ g).

Definition Init (g : FeatureGenerator) : FeatureGenerator := add_learning_data g.

(** [absl::StrCat] of an [int]: its decimal digits. *)
Definition StrCat_int (n : Z) : string := NilZero.string_of_int (Z.to_int n).

(** Lines 70-72 and 133-135, the same expression twice. *)
Definition learning_data_file_name (fl : Flags) (index : Z) : string :=
  FLAGS_planning_data_dir fl +:+ "/learning_data." +:+ StrCat_int index +:+ ".bin".

(** Lines 60-67. *)
Definition WriteOutLearningData (fl : Flags) (learning_data : LearningData)
    (file_name : string) : list Effect :=
  if FLAGS_enable_binary_learning_data fl
  then [WriteFile true file_name learning_data]
  else [WriteFile false file_name learning_data].

Definition total_msg : string := "Total learning_data_frame number:".

(** Lines 69-78. *)
Definition Close (fl : Flags) (g : FeatureGenerator) : FeatureGenerator * list Effect :=
  let file_name := learning_data_file_name fl (learning_data_file_index_ g) in
  let total := total_learning_data_frame_num_ g + Z.of_nat (length (learning_data_ g)) in
  let written := WriteOutLearningData fl (learning_data_ g) file_name in
  (mkFeatureGenerator
     (learning_data_ g)
     (learning_data_frame_ g)
     (localization_for_label_ g)
     (learning_data_file_index_ g + 1)
     total,
   written ++ [LogInfo total_msg total]).

(** Lines 90-102, the body of the loop for one selected sample. *)
Definition trajectory_point_of (le : LocalizationEstimate.t) : TrajectoryPoint.t :=
  let pose := LocalizationEstimate.pose le in
  let v := sqrt (Point3D.x (Pose.linear_velocity pose) * Point3D.x (Pose.linear_velocity pose) +
                 Point3D.y (Pose.linear_velocity pose) * Point3D.y (Pose.linear_velocity pose))%float in
  let a := sqrt (Point3D.x (Pose.linear_acceleration pose) * Point3D.x (Pose.linear_acceleration pose) +
                 Point3D.y (Pose.linear_acceleration pose) * Point3D.y (Pose.linear_acceleration pose))%float in
  TrajectoryPoint.mk
    (PathPoint.mk (Point3D.x (Pose.position pose)) (Point3D.y (Pose.position pose))
                  (Point3D.z (Pose.position pose)) (Pose.heading pose))
    v a.

(** Lines 85-103: the loop, entered with the value [i] has before [++i].
    [i % interval] is C++'s truncating remainder; with [interval = 0] it is
    undefined. *)
Fixpoint label_loop (interval : Z) (i : Z) (ls : list LocalizationEstimate.t)
    (frame : LearningDataFrame.t) : option LearningDataFrame.t :=
  match ls with
  | [] => Some frame
  | le :: rest =>
      let i := i + 1 in
      if interval =? 0 then None
      else if negb (Z.rem i interval =? 0) then label_loop interval i rest frame
      else label_loop interval i rest
             (LearningDataFrame.add_label_trajectory_points (trajectory_point_of le) frame)
  end.

(** Lines 80-104. *)
Definition GenerateTrajectoryLabel (fl : Flags)
    (localization_for_label : list LocalizationEstimate.t)
    (learning_data_frame : LearningDataFrame.t) : option LearningDataFrame.t :=
  label_loop (FLAGS_localization_sample_interval_for_trajectory_point fl) (-1)
    localization_for_label learning_data_frame.

(** Lines 126-128: [n] times [pop_front()], undefined on an empty list. *)
Fixpoint pop_front_times {A : Type} (n : nat) (l : list A) : option (list A) :=
  match n with
  | O => Some l
  | S n' => match l with
            | [] => None
            | _ :: l' => pop_front_times n' l'
            end
  end.

(** Lines 113-119: the localization feature of the open frame after the five
    copies. *)
Definition localization_feature_of (le : LocalizationEstimate.t) : LocalizationFeature.t :=
  let pose := LocalizationEstimate.pose le in
  LocalizationFeature.mk (Pose.position pose) (Pose.heading pose) (Pose.linear_velocity pose)
    (Pose.linear_acceleration pose) (Pose.angular_velocity pose).

(** Lines 149-154. *)
Definition chassis_feature_of (chassis : Chassis.t) : ChassisFeature.t :=
  ChassisFeature.mk (Chassis.speed_mps chassis) (Chassis.throttle_percentage chassis)
    (Chassis.brake_percentage chassis) (Chassis.steering_percentage chassis)
    (Chassis.gear_location chassis).

(** A write through [learning_data_frame_] at index [p]. *)
Definition store_frame (p : nat) (frame : LearningDataFrame.t) (g : FeatureGenerator)
    : FeatureGenerator :=
  mkFeatureGenerator
    (<[p := frame]> (learning_data_ g))
    (learning_data_frame_ g)
    (localization_for_label_ g)
    (learning_data_file_index_ g)
    (total_learning_data_frame_num_ g).

Definition set_localization_for_label (w : list LocalizationEstimate.t) (g : FeatureGenerator)
    : FeatureGenerator :=
  mkFeatureGenerator
    (learning_data_ g)
    (learning_data_frame_ g)
    w
    (learning_data_file_index_ g)
    (total_learning_data_frame_num_ g).

(** Lines 122-129, entered with the frame pointer [p]. *)
Definition label_block (fl : Flags) (p : nat) (g : FeatureGenerator) : Outcome :=
  if decide (FLAGS_learning_data_frame_label_sample_interval fl
             ≤ Z.of_nat (length (localization_for_label_ g)))
  then
    frame ← learning_data_ g !! p;
    labelled ← GenerateTrajectoryLabel fl (localization_for_label_ g) frame;
    let g := add_learning_data (store_frame p labelled g) in
    window ← pop_front_times (Z.to_nat (FLAGS_localization_move_window_step fl))
                             (localization_for_label_ g);
    Some (set_localization_for_label window g, [FrameClosed labelled])
  else Some (g, []).

(** Lines 131-141. *)
Definition write_block (fl : Flags) (g : FeatureGenerator) : FeatureGenerator * list Effect :=
  if decide (FLAGS_learning_data_frame_num_per_file fl ≤ Z.of_nat (length (learning_data_ g)))
  then
    let file_name := learning_data_file_name fl (learning_data_file_index_ g) in
    let written := WriteOutLearningData fl (learning_data_ g) file_name in
    (add_learning_data
       (mkFeatureGenerator
          []
          (learning_data_frame_ g)
          (localization_for_label_ g)
          (learning_data_file_index_ g + 1)
          (total_learning_data_frame_num_ g + Z.of_nat (length (learning_data_ g)))),
     written)
  else (g, []).

(** Lines 106-142. *)
Definition OnLocalization (fl : Flags) (le : LocalizationEstimate.t) (g : FeatureGenerator)
    : Outcome :=
  match learning_data_frame_ g with
  | None => Some (g, [LogError nullptr_msg])
  | Some p =>
      frame ← learning_data_ g !! p;
      let g := store_frame p
                 (LearningDataFrame.set_localization_feature (localization_feature_of le) frame) g in
      let g := set_localization_for_label (localization_for_label_ g ++ [le]) g in
      '(g, closed) ← label_block fl p g;
      let '(g, written) := write_block fl g in
      Some (g, closed ++ written)
  end.

(** Lines 144-155. *)
Definition OnChassis (chassis : Chassis.t) (g : FeatureGenerator) : Outcome :=
  match learning_data_frame_ g with
  | None => Some (g, [LogError nullptr_msg])
  | Some p =>
      frame ← learning_data_ g !! p;
      Some (store_frame p
              (LearningDataFrame.set_chassis_feature (chassis_feature_of chassis) frame) g,
            [])
  end.

(** Lines 157-178.  The record reader and the protobuf parser are outside the
    file; what reaches the two handlers is the sequence of messages that were
    read on the two topics and parsed. *)
Inductive Message :=
  | OnLocalizationTopic (localization : LocalizationEstimate.t)
  | OnChassisTopic (chassis : Chassis.t).

Definition handle (fl : Flags) (m : Message) (g : FeatureGenerator) : Outcome :=
  match m with
  | OnLocalizationTopic localization => OnLocalization fl localization g
  | OnChassisTopic chassis => OnChassis chassis g
  end.

Fixpoint ProcessOfflineData (fl : Flags) (messages : list Message) (g : FeatureGenerator)
    : Outcome :=
  match messages with
  | [] => Some (g, [])
  | m :: rest =>
      '(g, e1) ← handle fl m g;
      '(g, e2) ← ProcessOfflineData fl rest g;
      Some (g, e1 ++ e2)
  end.

(** Modelled from the spec: the driver that owns the generator is not among
    the sources.  It initialises the object, feeds it the stream, and
    finalises once at stream end. *)
Definition pipeline (fl : Flags) (messages : list Message) : Outcome :=
  '(g, e1) ← ProcessOfflineData fl messages (Init fresh_generator);
  let '(g, e2) := Close fl g in
  Some (g, e1 ++ e2).

(** ** Reading a trace *)

Definition written_files (tr : list Effect) : list (bool * string * LearningData) :=
  omap (λ e, match e with WriteFile b n d => Some (b, n, d) | _ => None end) tr.

Definition closed_frames (tr : list Effect) : list LearningDataFrame.t :=
  omap (λ e, match e with FrameClosed f => Some f | _ => None end) tr.

(** The localization samples of a stream, in order. *)
Definition localizations_of (messages : list Message) : list LocalizationEstimate.t :=
  omap (λ m, match m with OnLocalizationTopic le => Some le | _ => None end) messages.

(** How many frames each written file holds, in the order of writing. *)
Definition file_sizes (tr : list Effect) : list nat :=
  (λ f, length f.2) <$> written_files tr.

(** The frames of a written batch that stand before its last one. *)
Definition closed_part (data : LearningData) : LearningData :=
  take (length data - 1) data.

(** The frames closed since the last file was written. *)
Definition pending_step (acc : list LearningDataFrame.t) (e : Effect)
    : list LearningDataFrame.t :=
  match e with
  | FrameClosed f => acc ++ [f]
  | WriteFile _ _ _ => []
  | _ => acc
  end.

Definition pending (tr : list Effect) : list LearningDataFrame.t :=
  fold_left pending_step tr [].

(** The samples the loop of [GenerateTrajectoryLabel] selects when the head
    of the list is at position [j] of the window. *)
Fixpoint stride_picks (interval : Z) (j : Z) (ls : list LocalizationEstimate.t)
    : list LocalizationEstimate.t :=
  match ls with
  | [] => []
  | le :: rest =>
      if Z.rem j interval =? 0 then le :: stride_picks interval (j + 1) rest
      else stride_picks interval (j + 1) rest
  end.

Definition append_points (pts : list TrajectoryPoint.t) (f : LearningDataFrame.t)
    : LearningDataFrame.t :=
  LearningDataFrame.mk (LearningDataFrame.localization_feature f)
    (LearningDataFrame.chassis_feature f)
    (LearningDataFrame.label_trajectory_points f ++ pts).

(** The state in which a frame is open: the batch is [closed ++ [frame]] and
    [learning_data_frame_] points at [frame]. *)
Definition open_on (closed : list LearningDataFrame.t) (frame : LearningDataFrame.t)
    (g : FeatureGenerator) : Prop :=
  learning_data_ g = closed ++ [frame] ∧ learning_data_frame_ g = Some (length closed).

(** What relates a state to the trace that led to it from [Init]. *)
Record consistent (fl : Flags) (g : FeatureGenerator) (tr : list Effect) : Prop := {
  open_frame_last : ∃ frame, open_on (pending tr) frame g;
  index_counts_files :
    learning_data_file_index_ g = Z.of_nat (length (written_files tr));
  total_is_sum :
    total_learning_data_frame_num_ g = Z.of_nat (sum_list (file_sizes tr));
  total_counts_frames :
    total_learning_data_frame_num_ g + Z.of_nat (length (pending tr))
    = Z.of_nat (length (closed_frames tr)) + Z.of_nat (length (written_files tr));
  files_named : ∀ (k : nat) b n d,
    written_files tr !! k = Some (b, n, d) →
    b = FLAGS_enable_binary_learning_data fl ∧ n = learning_data_file_name fl (Z.of_nat k);
  closed_are_written :
    closed_frames tr
    = mjoin ((λ f, closed_part f.2) <$> written_files tr) ++ pending tr
}.

(** [OnLocalization] up to line 129, on a state whose batch is
    [closed ++ [frame]] with [frame] open. *)
Definition after_label_block (fl : Flags) (closed : list LearningDataFrame.t)
    (frame : LearningDataFrame.t) (le : LocalizationEstimate.t) (g : FeatureGenerator)
    : Outcome :=
  let frame := LearningDataFrame.set_localization_feature (localization_feature_of le) frame in
  let window := localization_for_label_ g ++ [le] in
  if decide (FLAGS_learning_data_frame_label_sample_interval fl ≤ Z.of_nat (length window)) then
    labelled ← GenerateTrajectoryLabel fl window frame;
    window' ← pop_front_times (Z.to_nat (FLAGS_localization_move_window_step fl)) window;
    Some (mkFeatureGenerator (closed ++ [labelled; LearningDataFrame.empty])
            (Some (S (length closed))) window'
            (learning_data_file_index_ g) (total_learning_data_frame_num_ g),
          [FrameClosed labelled])
  else
    Some (mkFeatureGenerator (closed ++ [frame]) (Some (length closed)) window
            (learning_data_file_index_ g) (total_learning_data_frame_num_ g),
          []).

(** ** Concrete streams *)

Definition flags_with (label_interval num_per_file point_interval window_step : Z)
    (binary : bool) : Flags := {|
  FLAGS_planning_data_dir := "/data";
  FLAGS_learning_data_frame_label_sample_interval := label_interval;
  FLAGS_learning_data_frame_num_per_file := num_per_file;
  FLAGS_localization_sample_interval_for_trajectory_point := point_interval;
  FLAGS_localization_move_window_step := window_step;
  FLAGS_enable_binary_learning_data := binary
|}.

Definition origin : Point3D.t := Point3D.mk 0 0 0.

(** A vehicle at [(px, 0, 0)] with the given velocity and no acceleration. *)
Definition sample_at (px : float) (velocity : Point3D.t) : LocalizationEstimate.t :=
  LocalizationEstimate.mk (Pose.mk (Point3D.mk px 0 0) 0 velocity origin origin).

(** A vehicle at the origin moving at (3, 4, 12) and accelerating at
    (6, 8, 24). *)
Definition climbing_sample : LocalizationEstimate.t :=
  LocalizationEstimate.mk
    (Pose.mk origin 0 (Point3D.mk 3 4 12) (Point3D.mk 6 8 24) origin).

Definition chassis_at (speed : float) : Chassis.t := Chassis.mk speed 0 0 0 1.

(** Four samples, the window and the stride of the scenario that closes the
    list of testable properties of the specification. *)
Definition four_samples : list LocalizationEstimate.t :=
  [sample_at 0 origin; sample_at 1 origin; sample_at 2 origin; sample_at 3 origin].

Definition outcome_of (o : Outcome) : FeatureGenerator * list Effect :=
  default (fresh_generator, []) o.

(** Two samples into a window of four, three frames to a file. *)
Definition midway : FeatureGenerator * list Effect :=
  Eval vm_compute in
    outcome_of (ProcessOfflineData (flags_with 4 3 2 2 true)
                  (OnLocalizationTopic <$> take 2 four_samples) (Init fresh_generator)).

(** The four samples and then [Close]: one frame closed, one file written. *)
Definition finished : FeatureGenerator * list Effect :=
  Eval vm_compute in
    outcome_of (pipeline (flags_with 4 3 2 2 true) (OnLocalizationTopic <$> four_samples)).

(** From [midway]: two chassis samples, the third localization sample, and
    then the fourth, which closes the frame. *)
Definition before_close : FeatureGenerator * list Effect :=
  Eval vm_compute in
    outcome_of (ProcessOfflineData (flags_with 4 3 2 2 true)
                  ([OnChassisTopic (chassis_at 3)]
                   ++ OnChassisTopic (chassis_at 5)
                   :: (OnLocalizationTopic <$> [sample_at 2 origin]))
                  midway.1).

Definition at_close : FeatureGenerator * list Effect :=
  Eval vm_compute in
    outcome_of (OnLocalization (flags_with 4 3 2 2 true) (sample_at 3 origin) before_close.1).

(** Two samples into a window of four and a first chassis sample, from
    [Init]. *)
Definition first_chassis_in : FeatureGenerator * list Effect :=
  Eval vm_compute in
    outcome_of (ProcessOfflineData (flags_with 4 3 2 2 true)
                  ((OnLocalizationTopic <$> take 2 four_samples)
                   ++ [OnChassisTopic (chassis_at 3)])
                  (Init fresh_generator)).

(** One frame to a file, a window of two: two chassis samples and the first
    localization sample from [Init], and then the second localization sample,
    which closes a frame. *)
Definition chassis_then_write : FeatureGenerator * list Effect :=
  Eval vm_compute in
    outcome_of (ProcessOfflineData (flags_with 2 1 1 1 true)
                  [OnChassisTopic (chassis_at 3); OnChassisTopic (chassis_at 5);
                   OnLocalizationTopic (sample_at 0 origin)]
                  (Init fresh_generator)).

Definition close_after_write : FeatureGenerator * list Effect :=
  Eval vm_compute in
    outcome_of (OnLocalization (flags_with 2 1 1 1 true) (sample_at 1 origin)
                  chassis_then_write.1).

(** ** The record reader (lines 157-178)

    What [ProcessOfflineData] takes from outside the file: the two topic
    flags of adapter_gflags, the records [RecordReader] can open (a name that
    cannot be opened gives an invalid reader), and [ParseFromString] of the two
    message types. *)

Module Reader.
Record RecordMessage := mkRecordMessage { channel_name : string; content : string }.

Record Environment := {
  FLAGS_localization_topic : string;
  FLAGS_chassis_topic : string;
  open_record : string → option (list RecordMessage);
  ParseLocalization : string → option LocalizationEstimate.t;
  ParseChassis : string → option Chassis.t
}.

(** Lines 166-176: what one message read from the record does. *)
Definition on_message (env : Environment) (fl : Flags) (message : RecordMessage)
    (g : FeatureGenerator) : Outcome :=
  if decide (channel_name message = FLAGS_localization_topic env) then
    match ParseLocalization env (content message) with
    | Some localization => OnLocalization fl localization g
    | None => Some (g, [])
    end
  else if decide (channel_name message = FLAGS_chassis_topic env) then
    match ParseChassis env (content message) with
    | Some chassis => OnChassis chassis g
    | None => Some (g, [])
    end
  else Some (g, []).

(** Lines 164-177: the loop over the messages [ReadMessage] delivers. *)
Fixpoint read_messages (env : Environment) (fl : Flags) (messages : list RecordMessage)
    (g : FeatureGenerator) : Outcome :=
  match messages with
  | [] => Some (g, [])
  | message :: rest =>
      '(g, e1) ← on_message env fl message g;
      '(g, e2) ← read_messages env fl rest g;
      Some (g, e1 ++ e2)
  end.

(** Lines 157-178. *)
Definition ProcessOfflineData (env : Environment) (fl : Flags) (record_filename : string)
    (g : FeatureGenerator) : Outcome :=
  match open_record env record_filename with
  | None => Some (g, [LogError ("Fail to open " +:+ record_filename)])
  | Some messages => read_messages env fl messages g
  end.

(** The message a record entry stands for, if the loop hands it to a
    handler at all. *)
Definition decode (env : Environment) (message : RecordMessage) : option Message :=
  if decide (channel_name message = FLAGS_localization_topic env) then
    OnLocalizationTopic <$> ParseLocalization env (content message)
  else if decide (channel_name message = FLAGS_chassis_topic env) then
    OnChassisTopic <$> ParseChassis env (content message)
  else None.
End Reader.

(** A small world for examples: two records, samples written as the text of
    their x coordinate, chassis messages as the text of their speed. *)
Definition example_env : Reader.Environment := {|
  Reader.FLAGS_localization_topic := "/apollo/localization/pose";
  Reader.FLAGS_chassis_topic := "/apollo/canbus/chassis";
  Reader.open_record := λ name,
    if decide (name = "a.record") then
      Some [Reader.mkRecordMessage "/apollo/localization/pose" "0";
            Reader.mkRecordMessage "/apollo/perception/obstacles" "0";
            Reader.mkRecordMessage "/apollo/localization/pose" "1";
            Reader.mkRecordMessage "/apollo/localization/pose" "garbled"]
    else if decide (name = "b.record") then
      Some [Reader.mkRecordMessage "/apollo/canbus/chassis" "5";
            Reader.mkRecordMessage "/apollo/localization/pose" "2";
            Reader.mkRecordMessage "/apollo/localization/pose" "3"]
    else if decide (name = "ab.record") then
      Some [Reader.mkRecordMessage "/apollo/localization/pose" "0";
            Reader.mkRecordMessage "/apollo/perception/obstacles" "0";
            Reader.mkRecordMessage "/apollo/localization/pose" "1";
            Reader.mkRecordMessage "/apollo/localization/pose" "garbled";
            Reader.mkRecordMessage "/apollo/canbus/chassis" "5";
            Reader.mkRecordMessage "/apollo/localization/pose" "2";
            Reader.mkRecordMessage "/apollo/localization/pose" "3"]
    else None;
  Reader.ParseLocalization := λ text,
    if decide (text = "0") then Some (sample_at 0 origin)
    else if decide (text = "1") then Some (sample_at 1 origin)
    else if decide (text = "2") then Some (sample_at 2 origin)
    else if decide (text = "3") then Some (sample_at 3 origin)
    else None;
  Reader.ParseChassis := λ text,
    if decide (text = "5") then Some (chassis_at 5) else None
|}.

(** Seven samples at x = 0, ..., 6. *)
Definition seven_samples : list LocalizationEstimate.t :=
  four_samples ++ [sample_at 4 origin; sample_at 5 origin; sample_at 6 origin].

(** A window of 4, a stride of 2, a step of 2, ten frames to a file, fed the
    seven samples with a chassis sample after the second: two frames close. *)
Definition seven_fed : FeatureGenerator * list Effect :=
  Eval vm_compute in
    outcome_of (ProcessOfflineData (flags_with 4 10 2 2 true)
                  ((OnLocalizationTopic <$> take 2 seven_samples)
                   ++ OnChassisTopic (chassis_at 5)
                   :: (OnLocalizationTopic <$> drop 2 seven_samples))
                  (Init fresh_generator)).

(** ** The sampling loop *)

Section SamplingLoop.
Variable interval : Z.

Lemma append_points_nil f : append_points [] f = f.
Proof. destruct f. unfold append_points. simpl. by rewrite app_nil_r. Qed.

Lemma append_points_cons p pts f :
  append_points pts (LearningDataFrame.add_label_trajectory_points p f)
  = append_points (p :: pts) f.
Proof. unfold append_points. simpl. by rewrite <- app_assoc. Qed.

Lemma label_loop_picks ls : ∀ i frame,
  interval ≠ 0 →
  label_loop interval i ls frame
  = Some (append_points (trajectory_point_of <$> stride_picks interval (i + 1) ls) frame).
Proof.
  induction ls as [|le rest IH]; intros i frame Hnz; simpl.
  - by rewrite append_points_nil.
  - destruct (Z.eqb_spec interval 0) as [|_]; [done|].
    destruct (Z.rem (i + 1) interval =? 0); simpl.
    + rewrite IH by done. by rewrite append_points_cons.
    + by apply IH.
Qed.

Lemma label_loop_zero le rest i frame :
  interval = 0 → label_loop interval i (le :: rest) frame = None.
Proof. intros ->. reflexivity. Qed.

Hypothesis interval_pos : 0 < interval.

Lemma rem_offset q r :
  0 ≤ q → 0 ≤ r < interval → Z.rem (q * interval + r) interval = r.
Proof.
  intros Hq Hr. rewrite Z.rem_mod_nonneg by nia.
  rewrite Z.add_comm, Z_mod_plus_full. apply Z.mod_small. lia.
Qed.

(** Between two multiples of the interval nothing is selected. *)
Lemma stride_picks_skip (d : nat) : ∀ q r ls,
  0 ≤ q → 1 ≤ r → r + Z.of_nat d = interval →
  stride_picks interval (q * interval + r) ls
  = stride_picks interval ((q + 1) * interval) (drop d ls).
Proof.
  induction d as [|d IH]; intros q r ls Hq Hr Hd.
  - rewrite drop_0. f_equal. lia.
  - destruct ls as [|le rest]; [done|]. simpl.
    rewrite rem_offset by lia.
    destruct (Z.eqb_spec r 0) as [|_]; [lia|].
    replace (q * interval + r + 1) with (q * interval + (r + 1)) by lia.
    apply IH; lia.
Qed.

Lemma stride_picks_multiple q le rest :
  0 ≤ q →
  stride_picks interval (q * interval) (le :: rest)
  = le :: stride_picks interval ((q + 1) * interval)
            (drop (Z.to_nat interval) (le :: rest)).
Proof.
  intros Hq. simpl.
  replace (q * interval) with (q * interval + 0) at 1 by lia.
  rewrite rem_offset by lia. simpl. f_equal.
  destruct (Z.to_nat interval) as [|d] eqn:Hd; [lia|]. simpl.
  apply stride_picks_skip; lia.
Qed.

(** The [k]-th selected sample is the one at position [k * interval]. *)
Lemma stride_picks_lookup (k : nat) : ∀ q ls,
  0 ≤ q →
  stride_picks interval (q * interval) ls !! k = ls !! (k * Z.to_nat interval)%nat.
Proof.
  induction k as [|k IH]; intros q ls Hq.
  - destruct ls as [|le rest]; [done|]. by rewrite stride_picks_multiple.
  - destruct ls as [|le rest]; [done|].
    rewrite stride_picks_multiple by done.
    change ((le :: ?l) !! S k) with (l !! k).
    rewrite IH by lia. rewrite lookup_drop. f_equal; lia.
Qed.

Lemma stride_picks_length ls :
  Z.of_nat (length (stride_picks interval 0 ls))
  = (Z.of_nat (length ls) + interval - 1) / interval.
Proof.
  set (n := length (stride_picks interval 0 ls)).
  set (c := (Z.of_nat (length ls) + interval - 1) / interval).
  assert (Hc : 0 ≤ c) by (apply Z.div_pos; lia).
  assert (Hlt : ∀ k : nat, (k < n)%nat ↔ Z.of_nat k < c).
  { intros k. unfold n. rewrite <- lookup_lt_is_Some.
    change 0 with (0 * interval). rewrite stride_picks_lookup by done.
    rewrite lookup_lt_is_Some. unfold c.
    assert (Hk : Z.of_nat (k * Z.to_nat interval) = Z.of_nat k * interval)
      by (rewrite Nat2Z.inj_mul, Z2Nat.id; lia).
    split; intros H.
    - assert (Z.of_nat k + 1 ≤ (Z.of_nat (length ls) + interval - 1) / interval);
        [|lia].
      apply Z.div_le_lower_bound; [lia|]. nia.
    - assert (Z.of_nat k + 1 ≤ (Z.of_nat (length ls) + interval - 1) / interval) by lia.
      assert (interval * (Z.of_nat k + 1) ≤ Z.of_nat (length ls) + interval - 1).
      { etrans; [apply Z.mul_le_mono_nonneg_l; [lia|done]|].
        apply Z.mul_div_le. lia. }
      nia. }
  destruct (Z.lt_trichotomy (Z.of_nat n) c) as [H|[H|H]]; [|done|].
  - apply Hlt in H. lia.
  - assert (Hk : Z.of_nat (Z.to_nat c) < c → False) by lia.
    exfalso. apply Hk. apply Hlt. lia.
Qed.
End SamplingLoop.

(** ** Reading traces piece by piece *)

Lemma written_files_app tr1 tr2 :
  written_files (tr1 ++ tr2) = written_files tr1 ++ written_files tr2.
Proof. apply omap_app. Qed.

Lemma file_sizes_app tr1 tr2 :
  file_sizes (tr1 ++ tr2) = file_sizes tr1 ++ file_sizes tr2.
Proof. unfold file_sizes. by rewrite written_files_app, fmap_app. Qed.

Lemma closed_frames_app tr1 tr2 :
  closed_frames (tr1 ++ tr2) = closed_frames tr1 ++ closed_frames tr2.
Proof. apply omap_app. Qed.

Lemma pending_app tr1 tr2 :
  pending (tr1 ++ tr2) = fold_left pending_step tr2 (pending tr1).
Proof. apply fold_left_app. Qed.

Lemma WriteOutLearningData_effect fl data name :
  WriteOutLearningData fl data name
  = [WriteFile (FLAGS_enable_binary_learning_data fl) name data].
Proof. unfold WriteOutLearningData. by destruct (FLAGS_enable_binary_learning_data fl). Qed.

Lemma sum_of_full_files (F : Z) (sizes : list nat) :
  Forall (λ n : nat, Z.of_nat n = F) sizes →
  Z.of_nat (sum_list sizes) = Z.of_nat (length sizes) * F.
Proof.
  induction 1 as [|n sizes Hn _ IH]; simpl; [done|].
  rewrite Nat2Z.inj_add, IH. lia.
Qed.

Lemma closed_part_snoc (closed : LearningData) frame :
  closed_part (closed ++ [frame]) = closed.
Proof.
  unfold closed_part. rewrite length_app. simpl.
  replace (length closed + 1 - 1)%nat with (length closed) by lia.
  by rewrite take_app_length.
Qed.

Lemma insert_last {A} (l : list A) (x y : A) :
  <[length l := y]> (l ++ [x]) = l ++ [y].
Proof. induction l as [|a l IH]; simpl; [done|]. by f_equal. Qed.

Lemma lookup_last {A} (l : list A) (x : A) : (l ++ [x]) !! length l = Some x.
Proof. by apply list_lookup_middle. Qed.

(** ** One call of each handler on a state with an open frame *)

Section Handlers.
Variable fl : Flags.

Local Abbreviation T_label := (FLAGS_learning_data_frame_label_sample_interval fl).
Local Abbreviation F_max := (FLAGS_learning_data_frame_num_per_file fl).
Local Abbreviation T_stride := (FLAGS_localization_sample_interval_for_trajectory_point fl).
Local Abbreviation W_step := (FLAGS_localization_move_window_step fl).

Lemma Init_open g :
  open_on (learning_data_ g) LearningDataFrame.empty (Init g).
Proof. by split. Qed.

Lemma open_on_lookup closed frame g :
  open_on closed frame g → learning_data_ g !! length closed = Some frame.
Proof. intros [-> _]. by apply list_lookup_middle. Qed.

Lemma open_on_store closed frame frame' g :
  open_on closed frame g → open_on closed frame' (store_frame (length closed) frame' g).
Proof.
  intros [Hb Hp]. split; [|done].
  unfold store_frame. cbn [learning_data_]. rewrite Hb. apply insert_last.
Qed.

Lemma OnChassis_open closed frame chassis g :
  open_on closed frame g →
  OnChassis chassis g
  = Some (store_frame (length closed)
            (LearningDataFrame.set_chassis_feature (chassis_feature_of chassis) frame) g,
          []).
Proof.
  intros Ho. unfold OnChassis. destruct Ho as [Hb Hp]. rewrite Hp.
  rewrite (open_on_lookup closed frame g) by done. done.
Qed.

Lemma write_block_unfold g :
  write_block fl g
  = if decide (F_max ≤ Z.of_nat (length (learning_data_ g)))
    then (mkFeatureGenerator [LearningDataFrame.empty] (Some 0%nat)
            (localization_for_label_ g) (learning_data_file_index_ g + 1)
            (total_learning_data_frame_num_ g + Z.of_nat (length (learning_data_ g))),
          [WriteFile (FLAGS_enable_binary_learning_data fl)
             (learning_data_file_name fl (learning_data_file_index_ g))
             (learning_data_ g)])
    else (g, []).
Proof.
  unfold write_block. case_decide; [|done].
  by rewrite WriteOutLearningData_effect.
Qed.

Lemma OnLocalization_open closed frame le g :
  open_on closed frame g →
  OnLocalization fl le g
  = '(g, e1) ← after_label_block fl closed frame le g;
    let '(g, e2) := write_block fl g in Some (g, e1 ++ e2).
Proof.
  intros Ho. pose proof (open_on_lookup _ _ _ Ho) as Hl.
  unfold OnLocalization, after_label_block. destruct Ho as [Hb Hp].
  rewrite Hp, Hl. simpl. unfold label_block. simpl.
  assert (Hi : ∀ f, <[length closed := f]> (learning_data_ g) = closed ++ [f]).
  { intros f. rewrite Hb. apply insert_last. }
  case_decide; simpl.
  - rewrite !Hi, lookup_last. simpl.
    destruct (GenerateTrajectoryLabel _ _ _) as [labelled|]; [|done]. simpl.
    unfold add_learning_data. simpl.
    destruct (pop_front_times _ _) as [window'|]; [|done]. simpl.
    rewrite !Hi, !insert_last, length_app. unfold set_localization_for_label. simpl.
    replace (length closed + 1)%nat with (S (length closed)) by lia.
    by rewrite <- app_assoc.
  - unfold set_localization_for_label, store_frame. simpl. by rewrite Hi, Hp.
Qed.
End Handlers.

(** ** Taking a call apart *)

Section Steps.
Variable fl : Flags.

Local Abbreviation T_label := (FLAGS_learning_data_frame_label_sample_interval fl).
Local Abbreviation F_max := (FLAGS_learning_data_frame_num_per_file fl).
Local Abbreviation T_stride := (FLAGS_localization_sample_interval_for_trajectory_point fl).
Local Abbreviation W_step := (FLAGS_localization_move_window_step fl).

Lemma OnLocalization_inv closed frame le g g' e :
  open_on closed frame g →
  OnLocalization fl le g = Some (g', e) →
  ∃ g2 e1 e2,
    after_label_block fl closed frame le g = Some (g2, e1)
    ∧ write_block fl g2 = (g', e2) ∧ e = e1 ++ e2.
Proof.
  intros Ho. rewrite (OnLocalization_open fl closed frame le g Ho).
  destruct (after_label_block fl closed frame le g) as [[g2 e1]|]; [|done]. simpl.
  destruct (write_block fl g2) as [g3 e2] eqn:Hw. intros [= <- <-].
  by exists g2, e1, e2.
Qed.

(** Either the window is still short and nothing closes, or the open frame
    is labelled and left behind, a new one opens and the window slides. *)
Lemma after_label_block_inv closed frame le g g2 e1 :
  after_label_block fl closed frame le g = Some (g2, e1) →
  let frame1 := LearningDataFrame.set_localization_feature (localization_feature_of le) frame in
  let window := localization_for_label_ g ++ [le] in
  (Z.of_nat (length window) < T_label ∧ e1 = []
   ∧ g2 = mkFeatureGenerator (closed ++ [frame1]) (Some (length closed)) window
            (learning_data_file_index_ g) (total_learning_data_frame_num_ g))
  ∨ (T_label ≤ Z.of_nat (length window)
     ∧ ∃ labelled window',
         GenerateTrajectoryLabel fl window frame1 = Some labelled
         ∧ pop_front_times (Z.to_nat W_step) window = Some window'
         ∧ e1 = [FrameClosed labelled]
         ∧ g2 = mkFeatureGenerator (closed ++ [labelled; LearningDataFrame.empty])
                  (Some (S (length closed))) window'
                  (learning_data_file_index_ g) (total_learning_data_frame_num_ g)).
Proof.
  unfold after_label_block. case_decide as Hc.
  - destruct (GenerateTrajectoryLabel _ _ _) as [labelled|] eqn:Hg; [|done]. simpl.
    destruct (pop_front_times _ _) as [window'|] eqn:Hp; [|done]. simpl.
    intros [= <- <-]. right. split; [done|]. by exists labelled, window'.
  - intros [= <- <-]. left. split; [lia|done].
Qed.

Lemma write_block_inv g g' e2 :
  write_block fl g = (g', e2) →
  (Z.of_nat (length (learning_data_ g)) < F_max ∧ e2 = [] ∧ g' = g)
  ∨ (F_max ≤ Z.of_nat (length (learning_data_ g))
     ∧ e2 = [WriteFile (FLAGS_enable_binary_learning_data fl)
               (learning_data_file_name fl (learning_data_file_index_ g))
               (learning_data_ g)]
     ∧ g' = mkFeatureGenerator [LearningDataFrame.empty] (Some 0%nat)
              (localization_for_label_ g) (learning_data_file_index_ g + 1)
              (total_learning_data_frame_num_ g + Z.of_nat (length (learning_data_ g)))).
Proof.
  rewrite write_block_unfold. case_decide; intros [= <- <-]; [right|left]; split; (lia || done).
Qed.

Lemma pop_front_times_drop {A} (n : nat) : ∀ (l l' : list A),
  pop_front_times n l = Some l' ↔ (n ≤ length l)%nat ∧ l' = drop n l.
Proof.
  induction n as [|n IH]; intros l l'; simpl.
  - rewrite drop_0. split; [intros [= ->]; split; [lia|done] | intros [_ ->]; done].
  - destruct l as [|x l]; simpl.
    + split; [done|lia].
    + rewrite IH. split; intros [? ?]; split; (lia || done).
Qed.
End Steps.

(** ** The state and its trace stay in step *)

Section Consistency.
Variable fl : Flags.

Lemma Init_consistent : consistent fl (Init fresh_generator) [].
Proof.
  split; try done.
  exists LearningDataFrame.empty. apply (Init_open fresh_generator).
Qed.

Lemma consistent_label g tr frame le g2 e1 :
  consistent fl g tr →
  after_label_block fl (pending tr) frame le g = Some (g2, e1) →
  consistent fl g2 (tr ++ e1).
Proof.
  intros [_ Hi Hs Ht Hn Hd] Hl.
  apply after_label_block_inv in Hl as [(_ & -> & ->)|(_ & labelled & w' & _ & _ & -> & ->)].
  - rewrite app_nil_r. split; try done. by eexists.
  - split; rewrite ?pending_app, ?file_sizes_app, ?written_files_app, ?closed_frames_app; simpl;
      rewrite ?app_nil_r, ?length_app; simpl.
    + exists LearningDataFrame.empty. split; simpl.
      * by rewrite <- app_assoc.
      * f_equal. rewrite length_app. simpl. lia.
    + done.
    + done.
    + lia.
    + done.
    + by rewrite Hd, <- app_assoc.
Qed.

Lemma consistent_write g tr g' e2 :
  consistent fl g tr →
  write_block fl g = (g', e2) →
  consistent fl g' (tr ++ e2).
Proof.
  intros [[frame [Hb Hp]] Hi Hs Ht Hn Hd] Hw.
  apply write_block_inv in Hw as [(_ & -> & ->)|(_ & -> & ->)].
  - rewrite app_nil_r. split; try done. by exists frame.
  - split; rewrite ?pending_app, ?file_sizes_app, ?written_files_app, ?closed_frames_app; simpl;
      rewrite ?app_nil_r, ?length_app; simpl.
    + by exists LearningDataFrame.empty.
    + lia.
    + rewrite sum_list_with_app. simpl. lia.
    + rewrite Hb, length_app. simpl. lia.
    + intros k b n d Hk. apply lookup_app_Some in Hk as [Hk|[Hge Hk]]; [by eapply Hn|].
      apply list_lookup_singleton_Some in Hk as [Hz [= <- <- <-]].
      split; [done|]. f_equal. lia.
    + rewrite fmap_app, join_app. simpl. rewrite Hb, closed_part_snoc, !app_nil_r. done.
Qed.

Lemma consistent_handle m g tr g' e :
  consistent fl g tr →
  handle fl m g = Some (g', e) →
  consistent fl g' (tr ++ e).
Proof.
  intros Hc Hh. pose proof Hc as [[frame Ho] Hi Hs Ht Hn Hd].
  destruct m as [le|chassis]; simpl in Hh.
  - eapply OnLocalization_inv in Hh as (g2 & e1 & e2 & Hl & Hw & ->); [|done].
    rewrite app_assoc. eapply consistent_write; [|done].
    exact (consistent_label _ _ _ _ _ _ Hc Hl).
  - rewrite (OnChassis_open _ _ _ _ Ho) in Hh. injection Hh as <- <-.
    rewrite app_nil_r. split; try done.
    eexists. exact (open_on_store _ _ _ _ Ho).
Qed.

Lemma consistent_run messages : ∀ g tr g' e,
  consistent fl g tr →
  ProcessOfflineData fl messages g = Some (g', e) →
  consistent fl g' (tr ++ e).
Proof.
  induction messages as [|m rest IH]; intros g tr g' e Hc Hr; simpl in Hr.
  - injection Hr as <- <-. by rewrite app_nil_r.
  - destruct (handle fl m g) as [[g1 e1]|] eqn:Hh; [|done]. simpl in Hr.
    destruct (ProcessOfflineData fl rest g1) as [[g2 e2]|] eqn:Hp; [|done].
    injection Hr as <- <-. rewrite app_assoc.
    eapply IH; [|done]. by eapply consistent_handle.
Qed.

Lemma consistent_from_Init messages g tr :
  ProcessOfflineData fl messages (Init fresh_generator) = Some (g, tr) →
  consistent fl g tr.
Proof. intros Hr. by apply (consistent_run messages _ [] _ _ Init_consistent). Qed.
End Consistency.

(** ** Induction over the states a stream can reach *)

Section Reachable.
Variable fl : Flags.

Local Abbreviation T_label := (FLAGS_learning_data_frame_label_sample_interval fl).
Local Abbreviation F_max := (FLAGS_learning_data_frame_num_per_file fl).
Local Abbreviation W_step := (FLAGS_localization_move_window_step fl).

Lemma reachable_ind (P : FeatureGenerator → list Effect → Prop) :
  P (Init fresh_generator) [] →
  (∀ g tr m g' e,
     consistent fl g tr → P g tr → handle fl m g = Some (g', e) → P g' (tr ++ e)) →
  ∀ messages g tr,
    ProcessOfflineData fl messages (Init fresh_generator) = Some (g, tr) → P g tr.
Proof.
  intros H0 Hstep messages g tr.
  enough (Hgen : ∀ g0 tr0 e, consistent fl g0 tr0 → P g0 tr0 →
                   ProcessOfflineData fl messages g0 = Some (g, e) → P g (tr0 ++ e)).
  { intros Hr. exact (Hgen _ [] _ (Init_consistent fl) H0 Hr). }
  induction messages as [|m rest IH]; intros g0 tr0 e Hc HP Hr; simpl in Hr.
  - injection Hr as <- <-. by rewrite app_nil_r.
  - destruct (handle fl m g0) as [[g1 e1]|] eqn:Hh; [|done]. simpl in Hr.
    destruct (ProcessOfflineData fl rest g1) as [[g2 e2]|] eqn:Hp; [|done].
    injection Hr as <- <-. rewrite app_assoc.
    apply IH with g1; [by eapply consistent_handle|by eapply Hstep|done].
Qed.

(** With room for at least one closed frame per file, a file is written
    exactly when the batch reaches [F_max] entries, and the batch is shorter
    than that between calls. *)
Lemma rotation messages g tr :
  2 ≤ F_max →
  ProcessOfflineData fl messages (Init fresh_generator) = Some (g, tr) →
  Forall (λ n : nat, Z.of_nat n = F_max) (file_sizes tr)
  ∧ Z.of_nat (length (pending tr)) + 1 < F_max
  ∧ Z.of_nat (length (closed_frames tr))
    = (F_max - 1) * Z.of_nat (length (file_sizes tr)) + Z.of_nat (length (pending tr)).
Proof.
  intros HF. revert messages g tr. apply reachable_ind.
  { split; [constructor|]. simpl. lia. }
  intros g tr m g' e Hc (Hfull & Hshort & Hcount) Hh.
  destruct Hc as [[frame Ho] _ _ _ _ _].
  destruct m as [le|chassis]; simpl in Hh.
  - eapply OnLocalization_inv in Hh as (g2 & e1 & e2 & Hl & Hw & ->); [|done].
    apply after_label_block_inv in Hl
      as [(_ & -> & ->)|(_ & labelled & w' & _ & _ & -> & ->)];
      apply write_block_inv in Hw as [(Hlen & -> & ->)|(Hlen & -> & ->)];
      simpl in Hlen; rewrite length_app in Hlen; simpl in Hlen;
      rewrite ?pending_app, ?file_sizes_app, ?closed_frames_app; simpl;
      rewrite ?app_nil_r, ?length_app; simpl.
    + done.
    + lia.
    + split; [done|]. lia.
    + split; [|lia]. apply Forall_app. split; [done|].
      constructor; [|constructor]. cbn [snd]. rewrite length_app. simpl. lia.
  - rewrite (OnChassis_open _ _ _ _ Ho) in Hh. injection Hh as <- <-.
    by rewrite app_nil_r.
Qed.

(** With a positive step no larger than the threshold, the window is below
    the threshold between calls. *)
Lemma window_short messages g tr :
  1 ≤ W_step ≤ T_label →
  ProcessOfflineData fl messages (Init fresh_generator) = Some (g, tr) →
  Z.of_nat (length (localization_for_label_ g)) < T_label.
Proof.
  intros HW. revert messages g tr. apply reachable_ind.
  { simpl. lia. }
  intros g tr m g' e Hc Hshort Hh.
  destruct Hc as [[frame Ho] _ _ _ _ _].
  destruct m as [le|chassis]; simpl in Hh.
  - eapply OnLocalization_inv in Hh as (g2 & e1 & e2 & Hl & Hw & ->); [|done].
    assert (Z.of_nat (length (localization_for_label_ g2)) < T_label) as H2.
    { apply after_label_block_inv in Hl
        as [(Hlen & -> & ->)|(Hlen & labelled & w' & _ & Hpop & -> & ->)]; simpl.
      - done.
      - apply pop_front_times_drop in Hpop as [Hle ->].
        rewrite length_drop. rewrite length_app in *. simpl in *. lia. }
    by apply write_block_inv in Hw as [(_ & -> & ->)|(_ & -> & ->)].
  - rewrite (OnChassis_open _ _ _ _ Ho) in Hh. by injection Hh as <- <-.
Qed.

Lemma pending_suffix tr : pending tr `suffix_of` closed_frames tr.
Proof.
  induction tr as [|e tr IH] using rev_ind; [done|].
  rewrite pending_app, closed_frames_app. destruct e; simpl; rewrite ?app_nil_r; try done.
  - apply suffix_nil.
  - by apply suffix_snoc.
Qed.

(** The whole run: the stream, then [Close]. *)
Lemma pipeline_inv messages g tr :
  pipeline fl messages = Some (g, tr) →
  ∃ g1 tr1,
    ProcessOfflineData fl messages (Init fresh_generator) = Some (g1, tr1)
    ∧ consistent fl g1 tr1
    ∧ g = mkFeatureGenerator (learning_data_ g1) (learning_data_frame_ g1)
            (localization_for_label_ g1) (learning_data_file_index_ g1 + 1)
            (total_learning_data_frame_num_ g1 + Z.of_nat (length (learning_data_ g1)))
    ∧ tr = tr1 ++ [WriteFile (FLAGS_enable_binary_learning_data fl)
                     (learning_data_file_name fl (learning_data_file_index_ g1))
                     (learning_data_ g1);
                   LogInfo total_msg
                     (total_learning_data_frame_num_ g1 + Z.of_nat (length (learning_data_ g1)))].
Proof.
  unfold pipeline.
  destruct (ProcessOfflineData _ _ _) as [[g1 tr1]|] eqn:Hr; [|done]. simpl.
  unfold Close. rewrite WriteOutLearningData_effect. intros [= <- <-].
  exists g1, tr1. split; [done|]. split; [by apply consistent_from_Init with messages|done].
Qed.
End Reachable.

(** ** The open frame lives in the batch *)

(** C10.  From [Init] on, after any sequence of localization and chassis
    messages, the batch [learning_data_] is not empty and its last element is
    the open frame, the one [learning_data_frame_] points to.  In front of it
    stand the frames closed since the last file was written.  The same holds
    inside the next call of [OnLocalization] when it reaches the test at line
    131: the length that test compares with [F_max] is the number of closed
    frames in the batch plus one. *)
Theorem open_frame_is_last_of_batch fl messages g tr :
  ProcessOfflineData fl messages (Init fresh_generator) = Some (g, tr) →
  (∃ frame,
     learning_data_ g = pending tr ++ [frame]
     ∧ learning_data_ g ≠ []
     ∧ last (learning_data_ g) = Some frame
     ∧ learning_data_frame_ g = Some (length (pending tr))
     ∧ learning_data_ g !! length (pending tr) = Some frame
     ∧ length (learning_data_ g) = S (length (pending tr))
     ∧ pending tr `suffix_of` closed_frames tr)
  ∧ ∀ le g' e,
      OnLocalization fl le g = Some (g', e) →
      ∃ g2 e1 e2 frame2,
        write_block fl g2 = (g', e2)
        ∧ e = e1 ++ e2
        ∧ learning_data_ g2 = pending (tr ++ e1) ++ [frame2]
        ∧ learning_data_frame_ g2 = Some (length (pending (tr ++ e1)))
        ∧ length (learning_data_ g2) = S (length (pending (tr ++ e1))).
Proof.
  intros Hr. apply consistent_from_Init in Hr as Hc.
  pose proof Hc as [[frame [Hb Hp]] _ _ _ _ _]. split.
  - exists frame. rewrite Hb. repeat split.
    + by destruct (pending tr).
    + apply last_snoc.
    + done.
    + apply lookup_last.
    + rewrite length_app. simpl. lia.
    + apply pending_suffix.
  - intros le g' e Hl.
    eapply OnLocalization_inv in Hl as (g2 & e1 & e2 & Hlab & Hw & ->); [|by split].
    destruct (consistent_label _ _ _ _ _ _ _ Hc Hlab) as [[frame2 [Hb2 Hp2]] _ _ _ _ _].
    exists g2, e1, e2, frame2. rewrite Hb2, length_app. simpl.
    repeat split; (done || lia).
Qed.

Lemma open_frame_is_last_of_batch_witness :
  ProcessOfflineData (flags_with 4 3 2 2 true)
    ((OnLocalizationTopic <$> take 2 four_samples)
     ++ [OnChassisTopic (chassis_at 3); OnChassisTopic (chassis_at 5);
         OnLocalizationTopic (sample_at 2 origin)])
    (Init fresh_generator) = Some (before_close.1, midway.2 ++ before_close.2)
  ∧ (∃ frame,
       learning_data_ before_close.1 = pending (midway.2 ++ before_close.2) ++ [frame]
       ∧ learning_data_ before_close.1 ≠ []
       ∧ last (learning_data_ before_close.1) = Some frame
       ∧ learning_data_frame_ before_close.1
         = Some (length (pending (midway.2 ++ before_close.2)))
       ∧ learning_data_ before_close.1 !! length (pending (midway.2 ++ before_close.2))
         = Some frame
       ∧ length (learning_data_ before_close.1)
         = S (length (pending (midway.2 ++ before_close.2)))
       ∧ pending (midway.2 ++ before_close.2)
           `suffix_of` closed_frames (midway.2 ++ before_close.2))
  ∧ ∃ g2 e1 e2 frame2,
      write_block (flags_with 4 3 2 2 true) g2 = (at_close.1, e2)
      ∧ at_close.2 = e1 ++ e2
      ∧ learning_data_ g2 = pending ((midway.2 ++ before_close.2) ++ e1) ++ [frame2]
      ∧ learning_data_frame_ g2
        = Some (length (pending ((midway.2 ++ before_close.2) ++ e1)))
      ∧ length (learning_data_ g2)
        = S (length (pending ((midway.2 ++ before_close.2) ++ e1))).
Proof.
  split; [vm_compute; reflexivity|].
  destruct (open_frame_is_last_of_batch (flags_with 4 3 2 2 true)
              ((OnLocalizationTopic <$> take 2 four_samples)
               ++ [OnChassisTopic (chassis_at 3); OnChassisTopic (chassis_at 5);
                   OnLocalizationTopic (sample_at 2 origin)])
              before_close.1 (midway.2 ++ before_close.2)) as [Hnow Hnext].
  { vm_compute; reflexivity. }
  split; [exact Hnow|].
  apply (Hnext (sample_at 3 origin) at_close.1 at_close.2).
  vm_compute; reflexivity.
Defined.

(** ** No open frame *)

(** C6.  When [learning_data_frame_] is null, [OnLocalization] and [OnChassis]
    log an error and return: the sample is dropped, the object is left exactly
    as it was (window, batch, file index and total included), no frame closes
    and no file is written. *)
Theorem no_open_frame_is_noop fl le chassis g :
  learning_data_frame_ g = None →
  OnLocalization fl le g = Some (g, [LogError nullptr_msg])
  ∧ OnChassis chassis g = Some (g, [LogError nullptr_msg])
  ∧ closed_frames [LogError nullptr_msg] = []
  ∧ written_files [LogError nullptr_msg] = [].
Proof.
  intros Hnull. unfold OnLocalization, OnChassis. by rewrite Hnull.
Qed.

Lemma no_open_frame_is_noop_witness :
  OnLocalization default_flags (sample_at 1 origin) fresh_generator
    = Some (fresh_generator, [LogError nullptr_msg])
  ∧ OnChassis (chassis_at 5) fresh_generator
    = Some (fresh_generator, [LogError nullptr_msg])
  ∧ closed_frames [LogError nullptr_msg] = []
  ∧ written_files [LogError nullptr_msg] = [].
Proof.
  apply (no_open_frame_is_noop default_flags (sample_at 1 origin) (chassis_at 5)
           fresh_generator).
  reflexivity.
Defined.

(** ** Finalising *)

(** C9 as stated fails: [Close] has no test for an empty batch.  Called on an
    object whose batch holds no frame at all it still writes file 0 and moves
    the index; called right after [Init], with no frame closed, it writes a
    file holding the open frame. *)
Lemma Close_writes_an_empty_batch :
  learning_data_ fresh_generator = []
  ∧ Close default_flags fresh_generator
    = (mkFeatureGenerator [] None [] 1 0,
       [WriteFile true "/apollo/modules/planning/data//learning_data.0.bin" [];
        LogInfo total_msg 0])
  ∧ written_files (Close default_flags fresh_generator).2 ≠ []
  ∧ (Close default_flags fresh_generator).1 ≠ fresh_generator
  ∧ closed_frames (outcome_of (pipeline default_flags [])).2 = []
  ∧ written_files (outcome_of (pipeline default_flags [])).2
    = [(true, "/apollo/modules/planning/data//learning_data.0.bin",
        [LearningDataFrame.empty])].
Proof. repeat split; done. Qed.

(** C9, amended.  [Close] always writes the batch as it stands, full, partial
    or empty, under the name of the current index, adds the batch's length to
    the total, moves the index by one and reports the total; it keeps the
    batch.  The write, the count and the increment are those of the write at
    lines 131-141, which in addition clears the batch and opens a frame. *)
Theorem Close_always_writes fl g :
  Close fl g
  = (mkFeatureGenerator (learning_data_ g) (learning_data_frame_ g)
       (localization_for_label_ g) (learning_data_file_index_ g + 1)
       (total_learning_data_frame_num_ g + Z.of_nat (length (learning_data_ g))),
     [WriteFile (FLAGS_enable_binary_learning_data fl)
        (learning_data_file_name fl (learning_data_file_index_ g)) (learning_data_ g);
      LogInfo total_msg
        (total_learning_data_frame_num_ g + Z.of_nat (length (learning_data_ g)))])
  ∧ write_block fl g
    = if decide (FLAGS_learning_data_frame_num_per_file fl
                 ≤ Z.of_nat (length (learning_data_ g)))
      then (mkFeatureGenerator [LearningDataFrame.empty] (Some 0%nat)
              (localization_for_label_ g)
              (learning_data_file_index_ (Close fl g).1)
              (total_learning_data_frame_num_ (Close fl g).1),
            take 1 (Close fl g).2)
      else (g, []).
Proof.
  split.
  - unfold Close. by rewrite WriteOutLearningData_effect.
  - rewrite write_block_unfold. unfold Close. by rewrite WriteOutLearningData_effect.
Qed.

(** ** The running total *)

(** C3 as stated fails: with no message at all no frame ever closes, yet
    the total reported by [Close] is 1, the open frame having been counted. *)
Lemma total_counts_open_frames :
  ∃ g tr,
    pipeline default_flags [] = Some (g, tr)
    ∧ closed_frames tr = []
    ∧ total_learning_data_frame_num_ g = 1
    ∧ last tr = Some (LogInfo total_msg 1)
    ∧ total_learning_data_frame_num_ g ≠ Z.of_nat (length (closed_frames tr)).
Proof.
  exists (Close default_flags (Init fresh_generator)).1,
         (Close default_flags (Init fresh_generator)).2.
  do 4 (split; [reflexivity|]). vm_compute. discriminate.
Qed.

(** C3, amended.  The total that [Close] reports is the sum of the lengths of
    the files written, and that is the number of frames closed during the run
    plus the number of files written: the closed frames are, in order, the
    frames of the files without the last frame of each, which is the frame
    that was open when the file was written. *)
Theorem reported_total fl messages g tr :
  pipeline fl messages = Some (g, tr) →
  last tr = Some (LogInfo total_msg (total_learning_data_frame_num_ g))
  ∧ total_learning_data_frame_num_ g = Z.of_nat (sum_list (file_sizes tr))
  ∧ total_learning_data_frame_num_ g
    = Z.of_nat (length (closed_frames tr)) + Z.of_nat (length (written_files tr))
  ∧ closed_frames tr = mjoin ((λ f, closed_part f.2) <$> written_files tr)
  ∧ learning_data_file_index_ g = Z.of_nat (length (written_files tr)).
Proof.
  intros Hp. apply pipeline_inv in Hp as (g1 & tr1 & _ & Hc & -> & ->).
  destruct Hc as [[frame [Hb _]] Hi Hs Ht _ Hd]. simpl.
  rewrite file_sizes_app, closed_frames_app, written_files_app, sum_list_with_app.
  rewrite !length_app, fmap_app, join_app. simpl.
  rewrite Hb, closed_part_snoc, length_app, !app_nil_r in *. simpl in *.
  split; [|repeat split; (lia || done)].
  change (tr1 ++ [?a; ?b]) with (tr1 ++ [a] ++ [b]).
  by rewrite (assoc_L (++)), last_snoc.
Qed.

Lemma reported_total_witness :
  pipeline (flags_with 4 3 2 2 true) (OnLocalizationTopic <$> four_samples) = Some finished
  ∧ total_learning_data_frame_num_ finished.1 = 2
  ∧ length (closed_frames finished.2) = 1%nat
  ∧ length (written_files finished.2) = 1%nat
  ∧ last finished.2 = Some (LogInfo total_msg (total_learning_data_frame_num_ finished.1))
  ∧ total_learning_data_frame_num_ finished.1 = Z.of_nat (sum_list (file_sizes finished.2))
  ∧ total_learning_data_frame_num_ finished.1
    = Z.of_nat (length (closed_frames finished.2))
      + Z.of_nat (length (written_files finished.2))
  ∧ closed_frames finished.2
    = mjoin ((λ f, closed_part f.2) <$> written_files finished.2)
  ∧ learning_data_file_index_ finished.1 = Z.of_nat (length (written_files finished.2)).
Proof.
  do 4 (split; [vm_compute; reflexivity|]).
  apply (reported_total (flags_with 4 3 2 2 true) (OnLocalizationTopic <$> four_samples)
           finished.1 finished.2).
  vm_compute; reflexivity.
Defined.

(** ** File names *)

(** C8 as stated fails on the suffix: it is [".bin"] whatever the switch
    selects, so in text mode the name does not tell the form, and no reading
    of names can recover the form that was selected. *)
Lemma bin_suffix_in_text_mode :
  written_files (Close (flags_with 4 2 2 2 false) (Init fresh_generator)).2
    = [(false, "/data/learning_data.0.bin", [LearningDataFrame.empty])]
  ∧ ¬ ∃ form_of_name : string → bool,
        ∀ binary b n d,
          (b, n, d) ∈ written_files
                        (Close (flags_with 4 2 2 2 binary) (Init fresh_generator)).2 →
          form_of_name n = b.
Proof.
  split; [reflexivity|]. intros [form_of_name Hform].
  assert (form_of_name "/data/learning_data.0.bin" = true) as Ht.
  { apply (Hform true true _ [LearningDataFrame.empty]). vm_compute. constructor. }
  assert (form_of_name "/data/learning_data.0.bin" = false) as Hf.
  { apply (Hform false false _ [LearningDataFrame.empty]). vm_compute. constructor. }
  congruence.
Qed.

(** C8, amended.  Every write, the one at lines 131-141 and the one of
    [Close], produces exactly one file and moves the index by one.  Over a
    run the files are numbered 0, 1, 2, ... in the order of writing; the
    [k]-th is named by the directory flag, ["/learning_data."], the decimal
    digits of [k] and [".bin"], the same suffix for both settings of the
    switch, and the switch selects only the form of the content. *)
Theorem files_are_numbered fl messages g tr :
  pipeline fl messages = Some (g, tr) →
  (∀ (k : nat) b n d,
     written_files tr !! k = Some (b, n, d) →
     n = FLAGS_planning_data_dir fl +:+ "/learning_data." +:+ StrCat_int (Z.of_nat k) +:+ ".bin"
     ∧ b = FLAGS_enable_binary_learning_data fl)
  ∧ learning_data_file_index_ g = Z.of_nat (length (written_files tr))
  ∧ (∀ g0,
       written_files (Close fl g0).2
         = [(FLAGS_enable_binary_learning_data fl,
             learning_data_file_name fl (learning_data_file_index_ g0),
             learning_data_ g0)]
       ∧ learning_data_file_index_ (Close fl g0).1 = learning_data_file_index_ g0 + 1)
  ∧ (∀ g0,
       (write_block fl g0 = (g0, []))
       ∨ (written_files (write_block fl g0).2
            = [(FLAGS_enable_binary_learning_data fl,
                learning_data_file_name fl (learning_data_file_index_ g0),
                learning_data_ g0)]
          ∧ learning_data_file_index_ (write_block fl g0).1
            = learning_data_file_index_ g0 + 1)).
Proof.
  intros Hp. apply pipeline_inv in Hp as (g1 & tr1 & _ & Hc & -> & ->).
  destruct Hc as [_ Hi _ _ Hn _]. split; [|split; [|split]].
  - intros k b n d. rewrite written_files_app. simpl. intros Hk.
    apply lookup_app_Some in Hk as [Hk|[Hge Hk]].
    + apply Hn in Hk as [-> ->]. done.
    + apply list_lookup_singleton_Some in Hk as [Hz [= <- <- <-]].
      split; [|done]. unfold learning_data_file_name. rewrite Hi.
      by replace k with (length (written_files tr1)) by lia.
  - rewrite written_files_app, length_app. simpl. lia.
  - intros g0. unfold Close. rewrite WriteOutLearningData_effect. done.
  - intros g0. rewrite write_block_unfold. case_decide; [right|left]; done.
Qed.

Lemma files_are_numbered_witness :
  pipeline (flags_with 1 2 1 1 false)
    (OnLocalizationTopic <$> take 2 four_samples)
  = Some (outcome_of (pipeline (flags_with 1 2 1 1 false)
                        (OnLocalizationTopic <$> take 2 four_samples)))
  ∧ (λ '(b, n, _), (b, n)) <$>
      written_files (outcome_of (pipeline (flags_with 1 2 1 1 false)
                                   (OnLocalizationTopic <$> take 2 four_samples))).2
    = [(false, "/data/learning_data.0.bin"); (false, "/data/learning_data.1.bin");
       (false, "/data/learning_data.2.bin")]
  ∧ ∀ (k : nat) b n d,
      written_files (outcome_of (pipeline (flags_with 1 2 1 1 false)
                                   (OnLocalizationTopic <$> take 2 four_samples))).2 !! k
        = Some (b, n, d) →
      n = "/data" +:+ "/learning_data." +:+ StrCat_int (Z.of_nat k) +:+ ".bin"
      ∧ b = false.
Proof.
  split; [vm_compute; reflexivity|]. split; [vm_compute; reflexivity|].
  apply (files_are_numbered (flags_with 1 2 1 1 false)
           (OnLocalizationTopic <$> take 2 four_samples)
           (outcome_of (pipeline (flags_with 1 2 1 1 false)
                          (OnLocalizationTopic <$> take 2 four_samples))).1).
  vm_compute; reflexivity.
Defined.

(** ** How many frames a file holds *)

(** C2 as stated fails.  With one frame per file, the first file of a
    one-sample run holds two frames.  With two frames per file and two frames
    closed, the remainder is 0 and yet a last file is written, holding one
    frame.  In neither run are the file sizes a row of [F_max]s followed by
    the remainder, if not 0. *)
Lemma open_frame_spoils_file_sizes :
  (pipeline (flags_with 1 1 1 1 true) (OnLocalizationTopic <$> take 1 four_samples)
     = Some (outcome_of (pipeline (flags_with 1 1 1 1 true)
                           (OnLocalizationTopic <$> take 1 four_samples)))
   ∧ file_sizes (outcome_of (pipeline (flags_with 1 1 1 1 true)
                               (OnLocalizationTopic <$> take 1 four_samples))).2
     = [2; 1]%nat
   ∧ length (closed_frames
               (outcome_of (pipeline (flags_with 1 1 1 1 true)
                              (OnLocalizationTopic <$> take 1 four_samples))).2) = 1%nat
   ∧ ¬ ∃ q : nat,
         file_sizes (outcome_of (pipeline (flags_with 1 1 1 1 true)
                                   (OnLocalizationTopic <$> take 1 four_samples))).2
         = replicate q 1%nat ++ (if decide (1 mod 1 = 0) then [] else [Z.to_nat (1 mod 1)]))
  ∧ (pipeline (flags_with 1 2 1 1 true) (OnLocalizationTopic <$> take 2 four_samples)
       = Some (outcome_of (pipeline (flags_with 1 2 1 1 true)
                             (OnLocalizationTopic <$> take 2 four_samples)))
     ∧ file_sizes (outcome_of (pipeline (flags_with 1 2 1 1 true)
                                 (OnLocalizationTopic <$> take 2 four_samples))).2
       = [2; 2; 1]%nat
     ∧ length (closed_frames
                 (outcome_of (pipeline (flags_with 1 2 1 1 true)
                                (OnLocalizationTopic <$> take 2 four_samples))).2) = 2%nat
     ∧ ¬ ∃ q : nat,
           file_sizes (outcome_of (pipeline (flags_with 1 2 1 1 true)
                                     (OnLocalizationTopic <$> take 2 four_samples))).2
           = replicate q 2%nat ++ (if decide (2 mod 2 = 0) then [] else [Z.to_nat (2 mod 2)])).
Proof.
  split; (split; [vm_compute; reflexivity|]); (split; [vm_compute; reflexivity|]);
    (split; [vm_compute; reflexivity|]); intros [q Hq].
  - vm_compute in Hq. destruct q as [|[|q]]; discriminate.
  - vm_compute in Hq. destruct q as [|[|[|q]]]; discriminate.
Qed.

(** C2, amended.  With [F_max >= 2], every file written while the stream is
    read holds exactly [F_max] frames; [Close] always writes one more file,
    which holds [1 + (N mod (F_max - 1))] frames, where [N] is the number of
    frames closed in the run.  That is never 0, and it is the remainder
    modulo [F_max] of the number of frames written, not of [N]: in every file
    the last frame is the one that was open when the file was written, and
    the frames before it, file after file, are the closed frames of the
    run. *)
Theorem file_sizes_of_a_run fl messages g tr :
  2 ≤ FLAGS_learning_data_frame_num_per_file fl →
  pipeline fl messages = Some (g, tr) →
  ∃ (full : list nat) (final : nat),
    file_sizes tr = full ++ [final]
    ∧ Forall (λ n : nat, Z.of_nat n = FLAGS_learning_data_frame_num_per_file fl) full
    ∧ Z.of_nat (length full)
      = Z.of_nat (length (closed_frames tr)) / (FLAGS_learning_data_frame_num_per_file fl - 1)
    ∧ Z.of_nat final
      = 1 + Z.of_nat (length (closed_frames tr))
            mod (FLAGS_learning_data_frame_num_per_file fl - 1)
    ∧ Z.of_nat final
      = Z.of_nat (sum_list (file_sizes tr)) mod FLAGS_learning_data_frame_num_per_file fl
    ∧ closed_frames tr = mjoin ((λ f, closed_part f.2) <$> written_files tr).
Proof.
  intros HF Hp. apply pipeline_inv in Hp as (g1 & tr1 & Hr & Hc & -> & ->).
  destruct (rotation fl messages g1 tr1 HF Hr) as (Hfull & Hshort & Hcount).
  destruct Hc as [[frame [Hb _]] _ _ _ _ Hd].
  exists (file_sizes tr1), (length (learning_data_ g1)).
  pose proof (sum_of_full_files _ _ Hfull) as Hsum.
  rewrite file_sizes_app, closed_frames_app, written_files_app, app_nil_r. simpl.
  rewrite fmap_app, join_app, sum_list_with_app. simpl.
  rewrite Hb, closed_part_snoc, length_app, !app_nil_r. simpl.
  set (F := FLAGS_learning_data_frame_num_per_file fl) in *.
  set (p := Z.of_nat (length (pending tr1))) in *.
  set (k := Z.of_nat (length (file_sizes tr1))) in *.
  assert (Hk : 0 ≤ k) by (unfold k; lia).
  assert (Hp0 : 0 ≤ p) by (unfold p; lia).
  split; [|split; [done|split; [|split; [|split; [|done]]]]].
  - f_equal. unfold file_sizes. simpl. by rewrite length_app.
  - rewrite Hcount. apply Z.div_unique with p; lia.
  - rewrite Hcount, Nat2Z.inj_add. fold p.
    rewrite <- (Z.mod_unique ((F - 1) * k + p) (F - 1) k p); lia.
  - rewrite !Nat2Z.inj_add, Hsum. fold p. fold k.
    change (Z.of_nat 1) with 1. change (Z.of_nat 0) with 0.
    rewrite <- (Z.mod_unique (k * F + (p + 1 + 0)) F k (p + 1)); lia.
Qed.

Lemma file_sizes_of_a_run_witness :
  pipeline (flags_with 1 3 1 1 true) (OnLocalizationTopic <$> take 3 four_samples)
    = Some (outcome_of (pipeline (flags_with 1 3 1 1 true)
                          (OnLocalizationTopic <$> take 3 four_samples)))
  ∧ file_sizes (outcome_of (pipeline (flags_with 1 3 1 1 true)
                              (OnLocalizationTopic <$> take 3 four_samples))).2
    = [3; 2]%nat
  ∧ ∃ (full : list nat) (final : nat),
      file_sizes (outcome_of (pipeline (flags_with 1 3 1 1 true)
                                (OnLocalizationTopic <$> take 3 four_samples))).2
        = full ++ [final]
      ∧ Forall (λ n : nat, Z.of_nat n = 3) full
      ∧ Z.of_nat (length full) = Z.of_nat 3 / (3 - 1)
      ∧ Z.of_nat final = 1 + Z.of_nat 3 mod (3 - 1)
      ∧ Z.of_nat final = Z.of_nat 5 mod 3
      ∧ closed_frames (outcome_of (pipeline (flags_with 1 3 1 1 true)
                                     (OnLocalizationTopic <$> take 3 four_samples))).2
        = mjoin ((λ f, closed_part f.2) <$>
                   written_files
                     (outcome_of (pipeline (flags_with 1 3 1 1 true)
                                    (OnLocalizationTopic <$> take 3 four_samples))).2).
Proof.
  split; [vm_compute; reflexivity|]. split; [vm_compute; reflexivity|].
  apply (file_sizes_of_a_run (flags_with 1 3 1 1 true)
           (OnLocalizationTopic <$> take 3 four_samples)
           (outcome_of (pipeline (flags_with 1 3 1 1 true)
                          (OnLocalizationTopic <$> take 3 four_samples))).1).
  - simpl. lia.
  - vm_compute; reflexivity.
Defined.

(** ** Further facts about the stream and the labelling *)

Lemma ProcessOfflineData_app fl m1 : ∀ m2 g,
  ProcessOfflineData fl (m1 ++ m2) g
  = '(g1, e1) ← ProcessOfflineData fl m1 g;
    '(g2, e2) ← ProcessOfflineData fl m2 g1;
    Some (g2, e1 ++ e2).
Proof.
  induction m1 as [|m rest IH]; intros m2 g; simpl.
  - destruct (ProcessOfflineData fl m2 g) as [[g2 e2]|]; done.
  - destruct (handle fl m g) as [[g1 e1]|]; [|done]. simpl. rewrite IH.
    destruct (ProcessOfflineData fl rest g1) as [[g2 e2]|]; [|done]. simpl.
    destruct (ProcessOfflineData fl m2 g2) as [[g3 e3]|]; [|done]. simpl.
    by rewrite app_assoc.
Qed.

Lemma stride_picks_elem interval ls : ∀ j le,
  le ∈ stride_picks interval j ls → le ∈ ls.
Proof.
  induction ls as [|x rest IH]; intros j le; simpl; [done|].
  destruct (Z.rem j interval =? 0).
  - rewrite !elem_of_cons. intros [->|Hin]; [by left|right; by eapply IH].
  - intros Hin. right. by eapply IH.
Qed.

(** Whatever the interval, a labelling that returns has appended the points
    of selected window samples and touched nothing else. *)
Lemma GenerateTrajectoryLabel_Some fl window frame labelled :
  GenerateTrajectoryLabel fl window frame = Some labelled →
  ∃ picked,
    labelled = append_points (trajectory_point_of <$> picked) frame
    ∧ (∀ le, le ∈ picked → le ∈ window)
    ∧ (FLAGS_localization_sample_interval_for_trajectory_point fl ≠ 0 →
       picked = stride_picks (FLAGS_localization_sample_interval_for_trajectory_point fl)
                  0 window).
Proof.
  unfold GenerateTrajectoryLabel.
  destruct (decide (FLAGS_localization_sample_interval_for_trajectory_point fl = 0)) as [Hz|Hnz].
  - destruct window as [|le rest]; [|by rewrite label_loop_zero].
    simpl. intros [= <-]. exists []. by rewrite append_points_nil.
  - rewrite label_loop_picks by done. intros [= <-]. eexists. split; [done|].
    split; [|done]. intros le. apply stride_picks_elem.
Qed.

Lemma GenerateTrajectoryLabel_defined fl window frame :
  FLAGS_localization_sample_interval_for_trajectory_point fl ≠ 0 →
  GenerateTrajectoryLabel fl window frame
  = Some (append_points
            (trajectory_point_of <$>
               stride_picks (FLAGS_localization_sample_interval_for_trajectory_point fl) 0 window)
            frame).
Proof. intros Hnz. unfold GenerateTrajectoryLabel. by rewrite label_loop_picks. Qed.

(** A call that closes nothing and writes nothing leaves the same frame
    open, with the chassis feature it had or, for a chassis message, the one
    just stored. *)
Lemma quiet_handle fl m closed frame g g1 :
  open_on closed frame g →
  handle fl m g = Some (g1, []) →
  ∃ frame1,
    open_on closed frame1 g1
    ∧ LearningDataFrame.chassis_feature frame1
      = match m with
        | OnLocalizationTopic _ => LearningDataFrame.chassis_feature frame
        | OnChassisTopic chassis => Some (chassis_feature_of chassis)
        end.
Proof.
  intros Ho Hh. destruct m as [le|chassis]; simpl in Hh.
  - eapply OnLocalization_inv in Hh as (g2 & e1 & e2 & Hl & Hw & He); [|done].
    symmetry in He. apply app_eq_nil in He as [-> ->].
    apply after_label_block_inv in Hl as [(_ & _ & ->)|(_ & ? & ? & _ & _ & [=] & _)].
    apply write_block_inv in Hw as [(_ & _ & ->)|(_ & [=] & _)].
    eexists. split; [by split|done].
  - rewrite (OnChassis_open _ _ _ _ Ho) in Hh. injection Hh as <-.
    eexists. split; [exact (open_on_store _ _ _ _ Ho)|done].
Qed.

Lemma quiet_localizations fl ls : ∀ closed frame g g1,
  open_on closed frame g →
  ProcessOfflineData fl (OnLocalizationTopic <$> ls) g = Some (g1, []) →
  ∃ frame1,
    open_on closed frame1 g1
    ∧ LearningDataFrame.chassis_feature frame1 = LearningDataFrame.chassis_feature frame.
Proof.
  induction ls as [|le rest IH]; intros closed frame g g1 Ho Hr; simpl in Hr.
  - injection Hr as <-. by exists frame.
  - destruct (OnLocalization fl le g) as [[g2 e1]|] eqn:Hh; [|done]. simpl in Hr.
    destruct (ProcessOfflineData fl _ g2) as [[g3 e2]|] eqn:Hp; [|done].
    injection Hr as <- He. apply app_eq_nil in He as [-> ->].
    destruct (quiet_handle fl (OnLocalizationTopic le) _ _ _ _ Ho Hh) as (frame1 & Ho1 & Hc1).
    destruct (IH _ _ _ _ Ho1 Hp) as (frame2 & Ho2 & Hc2).
    exists frame2. split; [done|]. by rewrite Hc2.
Qed.

(** With a non-zero sampling interval and a step no larger than the
    threshold nothing undefined is ever reached: every stream runs to its
    end. *)
Lemma handle_defined fl m g tr :
  FLAGS_localization_sample_interval_for_trajectory_point fl ≠ 0 →
  FLAGS_localization_move_window_step fl
    ≤ FLAGS_learning_data_frame_label_sample_interval fl →
  consistent fl g tr →
  ∃ g' e, handle fl m g = Some (g', e).
Proof.
  intros HS HW [[frame Ho] _ _ _ _ _]. destruct m as [le|chassis]; simpl.
  - rewrite (OnLocalization_open fl _ frame le g Ho). unfold after_label_block.
    case_decide as Hc; simpl.
    + rewrite GenerateTrajectoryLabel_defined by done. simpl.
      destruct (pop_front_times _ _) as [w'|] eqn:Hpop; simpl.
      * destruct (write_block fl _) as [g' e2]. by eexists _, _.
      * exfalso.
        destruct (pop_front_times_drop
                    (Z.to_nat (FLAGS_localization_move_window_step fl))
                    (localization_for_label_ g ++ [le])
                    (drop (Z.to_nat (FLAGS_localization_move_window_step fl))
                       (localization_for_label_ g ++ [le]))) as [_ Hex].
        rewrite Hex in Hpop; [done|]. split; [lia|done].
    + destruct (write_block fl _) as [g' e2]. by eexists _, _.
  - rewrite (OnChassis_open _ _ _ _ Ho). by eexists _, _.
Qed.

Lemma ProcessOfflineData_defined fl messages :
  FLAGS_localization_sample_interval_for_trajectory_point fl ≠ 0 →
  FLAGS_localization_move_window_step fl
    ≤ FLAGS_learning_data_frame_label_sample_interval fl →
  ∃ g tr, ProcessOfflineData fl messages (Init fresh_generator) = Some (g, tr).
Proof.
  intros HS HW.
  enough (Hgen : ∀ g0 tr0, consistent fl g0 tr0 →
                   ∃ g tr, ProcessOfflineData fl messages g0 = Some (g, tr)).
  { exact (Hgen _ [] (Init_consistent fl)). }
  induction messages as [|m rest IH]; intros g0 tr0 Hc; simpl.
  - by eexists _, _.
  - destruct (handle_defined fl m g0 tr0 HS HW Hc) as (g1 & e1 & Hh). rewrite Hh. simpl.
    destruct (IH g1 (tr0 ++ e1)) as (g2 & e2 & Hr); [by eapply consistent_handle|].
    rewrite Hr. by eexists _, _.
Qed.

(** The scenario that ends the testable properties of the specification:
    a window of 4, a stride of 2, a step of 2, two frames to a file; four
    samples at x = 0, 1, 2, 3 and a chassis sample of speed 5 before the
    third.  The frame closes with the points of the samples at x = 0 and
    x = 2 and the chassis speed 5, and two samples stay in the window.  The
    batch then holds two entries, the closed frame and the new open one, so
    file 0 is written at once and the batch is left with the open frame. *)
Example scenario_of_the_specification :
  ProcessOfflineData (flags_with 4 2 2 2 true)
    [OnLocalizationTopic (sample_at 0 origin); OnLocalizationTopic (sample_at 1 origin);
     OnChassisTopic (chassis_at 5);
     OnLocalizationTopic (sample_at 2 origin); OnLocalizationTopic (sample_at 3 origin)]
    (Init fresh_generator)
  = Some
      (mkFeatureGenerator [LearningDataFrame.empty] (Some 0%nat)
         [sample_at 2 origin; sample_at 3 origin] 1 2,
       [FrameClosed
          (LearningDataFrame.mk
             (Some (localization_feature_of (sample_at 3 origin)))
             (Some (ChassisFeature.mk 5 0 0 0 1))
             [TrajectoryPoint.mk (PathPoint.mk 0 0 0 0) 0 0;
              TrajectoryPoint.mk (PathPoint.mk 2 0 0 0) 0 0]);
        WriteFile true "/data/learning_data.0.bin"
          [LearningDataFrame.mk
             (Some (localization_feature_of (sample_at 3 origin)))
             (Some (ChassisFeature.mk 5 0 0 0 1))
             [TrajectoryPoint.mk (PathPoint.mk 0 0 0 0) 0 0;
              TrajectoryPoint.mk (PathPoint.mk 2 0 0 0) 0 0];
           LearningDataFrame.empty]]).
Proof. vm_compute. reflexivity. Qed.

(** ** Chassis samples *)

(** A call that closes no frame on a batch shorter than [F_max] writes no
    file either, and leaves the batch as long as it was. *)
Lemma no_close_no_write_handle fl m closed frame g g1 e :
  open_on closed frame g →
  Z.of_nat (length (learning_data_ g)) < FLAGS_learning_data_frame_num_per_file fl →
  handle fl m g = Some (g1, e) →
  closed_frames e = [] →
  e = [] ∧ length (learning_data_ g1) = length (learning_data_ g).
Proof.
  intros Ho Hlen Hh Hc. pose proof Ho as [Hb _]. destruct m as [le|chassis]; simpl in Hh.
  - eapply OnLocalization_inv in Hh as (g2 & e1 & e2 & Hl & Hw & ->); [|done].
    apply after_label_block_inv in Hl
      as [(_ & -> & ->)|(_ & labelled & w' & _ & _ & -> & _)]; [|done].
    apply write_block_inv in Hw as [(_ & -> & ->)|(Hge & _ & _)].
    + split; [done|]. simpl. by rewrite Hb, !length_app.
    + simpl in Hge. rewrite Hb in Hlen. rewrite !length_app in *. simpl in *. lia.
  - rewrite (OnChassis_open _ _ _ _ Ho) in Hh. injection Hh as <- <-.
    split; [done|]. unfold store_frame. simpl. by rewrite length_insert.
Qed.

Lemma no_close_no_write fl messages : ∀ closed frame g g1 tr,
  open_on closed frame g →
  Z.of_nat (length (learning_data_ g)) < FLAGS_learning_data_frame_num_per_file fl →
  ProcessOfflineData fl messages g = Some (g1, tr) →
  closed_frames tr = [] →
  tr = [].
Proof.
  induction messages as [|m rest IH]; intros closed frame g g1 tr Ho Hlen Hr Hc; simpl in Hr.
  - by injection Hr as <- <-.
  - destruct (handle fl m g) as [[g2 e1]|] eqn:Hh; [|done]. simpl in Hr.
    destruct (ProcessOfflineData fl rest g2) as [[g3 e2]|] eqn:Hp; [|done].
    injection Hr as <- <-. rewrite closed_frames_app in Hc.
    apply app_eq_nil in Hc as [Hc1 Hc2].
    destruct (no_close_no_write_handle _ _ _ _ _ _ _ Ho Hlen Hh Hc1) as [-> Hsame].
    destruct (quiet_handle _ _ _ _ _ _ Ho Hh) as (frame1 & Ho1 & _).
    rewrite (IH _ _ _ _ _ Ho1 ltac:(by rewrite Hsame) Hp Hc2). done.
Qed.

(** From a state with an open frame a stream logs nothing: a trace without
    a closed frame and without a written file is empty. *)
Lemma closes_and_writes_only fl messages : ∀ closed frame g g1 tr,
  open_on closed frame g →
  ProcessOfflineData fl messages g = Some (g1, tr) →
  closed_frames tr = [] →
  written_files tr = [] →
  tr = [].
Proof.
  induction messages as [|m rest IH]; intros closed frame g g1 tr Ho Hr Hc Hw; simpl in Hr.
  - by injection Hr as <- <-.
  - destruct (handle fl m g) as [[g2 e1]|] eqn:Hh; [|done]. simpl in Hr.
    destruct (ProcessOfflineData fl rest g2) as [[g3 e2]|] eqn:Hp; [|done].
    injection Hr as <- <-. rewrite closed_frames_app in Hc. rewrite written_files_app in Hw.
    apply app_eq_nil in Hc as [Hc1 Hc2]. apply app_eq_nil in Hw as [Hw1 Hw2].
    assert (e1 = []) as ->.
    { destruct m as [le|chassis]; simpl in Hh.
      - eapply OnLocalization_inv in Hh as (g4 & ea & eb & Hl & Hwb & ->); [|done].
        apply after_label_block_inv in Hl
          as [(_ & -> & _)|(_ & labelled & w' & _ & _ & -> & _)]; [|done].
        by apply write_block_inv in Hwb as [(_ & -> & _)|(_ & -> & _)].
      - rewrite (OnChassis_open _ _ _ _ Ho) in Hh. by injection Hh as <- <-. }
    destruct (quiet_handle _ _ _ _ _ _ Ho Hh) as (frame1 & Ho1 & _).
    by rewrite (IH _ _ _ _ _ Ho1 Hp Hc2 Hw2).
Qed.

(** Between calls the batch of a run from [Init] is shorter than [F_max],
    when [F_max] leaves room for a closed frame. *)
Lemma batch_below_F_max fl messages g tr :
  2 ≤ FLAGS_learning_data_frame_num_per_file fl →
  ProcessOfflineData fl messages (Init fresh_generator) = Some (g, tr) →
  Z.of_nat (length (learning_data_ g)) < FLAGS_learning_data_frame_num_per_file fl.
Proof.
  intros HF Hr. destruct (rotation fl _ _ _ HF Hr) as (_ & Hshort & _).
  destruct (consistent_from_Init fl _ _ _ Hr) as [[frame [Hb _]] _ _ _ _ _].
  rewrite Hb, length_app. simpl. lia.
Qed.

(** A chassis sample, then localization samples that close and write
    nothing: the frame the next localization sample closes carries the fields
    of the chassis sample. *)
Lemma closed_with_last_chassis fl closed frame g chassis ls le g1 g2 e f :
  open_on closed frame g →
  ProcessOfflineData fl (OnChassisTopic chassis :: (OnLocalizationTopic <$> ls)) g
  = Some (g1, []) →
  OnLocalization fl le g1 = Some (g2, e) →
  FrameClosed f ∈ e →
  LearningDataFrame.chassis_feature f = Some (chassis_feature_of chassis).
Proof.
  intros Ho Hr Hl Hin. simpl in Hr.
  destruct (OnChassis chassis g) as [[gc ec]|] eqn:Hc; [|done]. simpl in Hr.
  destruct (ProcessOfflineData fl _ gc) as [[gd ed]|] eqn:Hls; [|done].
  injection Hr as -> He. apply app_eq_nil in He as [-> ->].
  destruct (quiet_handle fl (OnChassisTopic chassis) _ _ _ _ Ho Hc) as (fc & Hoc & Hfc).
  destruct (quiet_localizations _ _ _ _ _ _ Hoc Hls) as (fd & Hod & Hfd).
  eapply OnLocalization_inv in Hl as (g3 & e1 & e2 & Hlab & Hw & ->); [|done].
  apply after_label_block_inv in Hlab
    as [(_ & -> & _)|(_ & labelled & w' & Hgen & _ & -> & _)];
    apply write_block_inv in Hw as [(_ & -> & _)|(_ & -> & _)];
    simpl in Hin.
  - by apply elem_of_nil in Hin.
  - apply list_elem_of_singleton in Hin. done.
  - apply list_elem_of_singleton in Hin as [= ->].
    apply GenerateTrajectoryLabel_Some in Hgen as (picked & -> & _). simpl. congruence.
  - rewrite elem_of_cons, list_elem_of_singleton in Hin. destruct Hin as [[= ->]|[=]].
    apply GenerateTrajectoryLabel_Some in Hgen as (picked & -> & _). simpl. congruence.
Qed.

(** C7.  On a state with an open frame, [OnChassis] replaces the chassis
    feature of that frame by the five fields of the sample and changes nothing
    else: the frames before it, its localization feature and its trajectory
    points, the window, the file index and the total stay as they are, and
    nothing is closed or written.  Hence the last chassis sample before a
    close is the one the closed frame carries, whatever the open frame held
    before it (an earlier chassis sample's fields or none):
    - on a run from [Init] with [F_max >= 2], if the state is reached by any
      stream [before] and the localization samples [ls] that follow the
      chassis sample close no frame, the frame that the next localization
      sample closes has the fields of [chassis];
    - on any state with an open frame, the same holds when [ls] closes no
      frame and writes no file. *)
Theorem chassis_overwrites_open_frame fl closed frame g chassis :
  open_on closed frame g →
  OnChassis chassis g
  = Some (mkFeatureGenerator
            (closed ++ [LearningDataFrame.mk
                          (LearningDataFrame.localization_feature frame)
                          (Some (ChassisFeature.mk
                                   (Chassis.speed_mps chassis)
                                   (Chassis.throttle_percentage chassis)
                                   (Chassis.brake_percentage chassis)
                                   (Chassis.steering_percentage chassis)
                                   (Chassis.gear_location chassis)))
                          (LearningDataFrame.label_trajectory_points frame)])
            (learning_data_frame_ g) (localization_for_label_ g)
            (learning_data_file_index_ g) (total_learning_data_frame_num_ g),
          [])
  ∧ (∀ before tr0 ls le g1 tr1 g2 e f,
      2 ≤ FLAGS_learning_data_frame_num_per_file fl →
      ProcessOfflineData fl before (Init fresh_generator) = Some (g, tr0) →
      ProcessOfflineData fl (OnChassisTopic chassis :: (OnLocalizationTopic <$> ls)) g
      = Some (g1, tr1) →
      closed_frames tr1 = [] →
      OnLocalization fl le g1 = Some (g2, e) →
      FrameClosed f ∈ e →
      LearningDataFrame.chassis_feature f = Some (chassis_feature_of chassis))
  ∧ (∀ ls le g1 tr1 g2 e f,
      ProcessOfflineData fl (OnChassisTopic chassis :: (OnLocalizationTopic <$> ls)) g
      = Some (g1, tr1) →
      closed_frames tr1 = [] →
      written_files tr1 = [] →
      OnLocalization fl le g1 = Some (g2, e) →
      FrameClosed f ∈ e →
      LearningDataFrame.chassis_feature f = Some (chassis_feature_of chassis)).
Proof.
  intros Ho. split; [|split].
  - rewrite (OnChassis_open _ _ _ _ Ho). destruct Ho as [Hb Hp].
    unfold store_frame. rewrite Hb, insert_last. done.
  - intros before tr0 ls le g1 tr1 g2 e f HF Hreach Hr Hnc Hl Hin.
    pose proof (batch_below_F_max fl _ _ _ HF Hreach) as Hlen.
    pose proof (no_close_no_write fl _ _ _ _ _ _ Ho Hlen Hr Hnc) as ->.
    exact (closed_with_last_chassis fl _ _ _ _ _ _ _ _ _ _ Ho Hr Hl Hin).
  - intros ls le g1 tr1 g2 e f Hr Hnc Hnw Hl Hin.
    pose proof (closes_and_writes_only fl _ _ _ _ _ _ Ho Hr Hnc Hnw) as ->.
    exact (closed_with_last_chassis fl _ _ _ _ _ _ _ _ _ _ Ho Hr Hl Hin).
Qed.

Lemma chassis_overwrites_open_frame_witness :
  open_on [] (default LearningDataFrame.empty (learning_data_ first_chassis_in.1 !! 0%nat))
    first_chassis_in.1
  ∧ LearningDataFrame.chassis_feature
      (default LearningDataFrame.empty (head (closed_frames at_close.2)))
    = Some (ChassisFeature.mk 5 0 0 0 1).
Proof.
  assert (Ho : open_on []
                 (default LearningDataFrame.empty
                    (learning_data_ first_chassis_in.1 !! 0%nat)) first_chassis_in.1)
    by (split; vm_compute; reflexivity).
  split; [exact Ho|].
  destruct (chassis_overwrites_open_frame (flags_with 4 3 2 2 true) [] _ first_chassis_in.1
              (chassis_at 5) Ho) as (_ & Hlast & _).
  apply (Hlast ((OnLocalizationTopic <$> take 2 four_samples)
                ++ [OnChassisTopic (chassis_at 3)])
           first_chassis_in.2 [sample_at 2 origin] (sample_at 3 origin)
           before_close.1 [] at_close.1 at_close.2).
  - vm_compute. discriminate.
  - vm_compute; reflexivity.
  - vm_compute; reflexivity.
  - reflexivity.
  - vm_compute; reflexivity.
  - vm_compute. constructor.
Defined.

(** C7 as stated fails when a file is written before the frame closes.  With
    one frame to a file and a window of two, the chassis samples of speed 3
    and then 5 and the first localization sample close no frame; that
    localization call writes the open frame, with the fields of the second
    chassis sample, into file 0 and opens a cleared frame (lines 131-141).
    The frame the second localization sample closes has no chassis feature. *)
Lemma a_file_write_takes_the_chassis_sample :
  ProcessOfflineData (flags_with 2 1 1 1 true)
    [OnChassisTopic (chassis_at 3); OnChassisTopic (chassis_at 5);
     OnLocalizationTopic (sample_at 0 origin)]
    (Init fresh_generator)
  = Some chassis_then_write
  ∧ closed_frames chassis_then_write.2 = []
  ∧ written_files chassis_then_write.2
    = [(true, "/data/learning_data.0.bin",
        [LearningDataFrame.mk (Some (localization_feature_of (sample_at 0 origin)))
           (Some (ChassisFeature.mk 5 0 0 0 1)) []])]
  ∧ OnLocalization (flags_with 2 1 1 1 true) (sample_at 1 origin) chassis_then_write.1
    = Some close_after_write
  ∧ closed_frames close_after_write.2
    = [LearningDataFrame.mk (Some (localization_feature_of (sample_at 1 origin))) None
         [TrajectoryPoint.mk (PathPoint.mk 0 0 0 0) 0 0;
          TrajectoryPoint.mk (PathPoint.mk 1 0 0 0) 0 0]]
  ∧ ∀ f, FrameClosed f ∈ close_after_write.2 →
         LearningDataFrame.chassis_feature f ≠ Some (chassis_feature_of (chassis_at 5)).
Proof.
  repeat split; try (vm_compute; reflexivity).
  intros f Hin. unfold close_after_write in Hin. cbn [snd] in Hin.
  rewrite elem_of_cons, list_elem_of_singleton in Hin.
  destruct Hin as [[= ->]|[=]]. discriminate.
Qed.

(** ** The window *)

(** C4 as stated fails for a step of 0, which is within [W_step <= T_label]:
    with a threshold of 1 the second sample closes a frame on a window of two
    samples, nothing is evicted, and the window keeps both. *)
Lemma window_grows_without_step :
  FLAGS_localization_move_window_step (flags_with 1 100 1 0 true)
    ≤ FLAGS_learning_data_frame_label_sample_interval (flags_with 1 100 1 0 true)
  ∧ ProcessOfflineData (flags_with 1 100 1 0 true)
      (OnLocalizationTopic <$> take 1 four_samples) (Init fresh_generator)
    = Some (outcome_of (ProcessOfflineData (flags_with 1 100 1 0 true)
                          (OnLocalizationTopic <$> take 1 four_samples)
                          (Init fresh_generator)))
  ∧ OnLocalization (flags_with 1 100 1 0 true) (sample_at 1 origin)
      (outcome_of (ProcessOfflineData (flags_with 1 100 1 0 true)
                     (OnLocalizationTopic <$> take 1 four_samples)
                     (Init fresh_generator))).1
    = Some (outcome_of
              (OnLocalization (flags_with 1 100 1 0 true) (sample_at 1 origin)
                 (outcome_of (ProcessOfflineData (flags_with 1 100 1 0 true)
                                (OnLocalizationTopic <$> take 1 four_samples)
                                (Init fresh_generator))).1))
  ∧ length (closed_frames
              (outcome_of
                 (OnLocalization (flags_with 1 100 1 0 true) (sample_at 1 origin)
                    (outcome_of (ProcessOfflineData (flags_with 1 100 1 0 true)
                                   (OnLocalizationTopic <$> take 1 four_samples)
                                   (Init fresh_generator))).1)).2) = 1%nat
  ∧ localization_for_label_
      (outcome_of
         (OnLocalization (flags_with 1 100 1 0 true) (sample_at 1 origin)
            (outcome_of (ProcessOfflineData (flags_with 1 100 1 0 true)
                           (OnLocalizationTopic <$> take 1 four_samples)
                           (Init fresh_generator))).1)).1
    = take 2 four_samples
  ∧ Z.of_nat (length (take 2 four_samples))
    ≠ FLAGS_learning_data_frame_label_sample_interval (flags_with 1 100 1 0 true)
      - FLAGS_localization_move_window_step (flags_with 1 100 1 0 true).
Proof.
  split; [vm_compute; discriminate|].
  do 4 (split; [vm_compute; reflexivity|]).
  vm_compute. discriminate.
Qed.

(** C4, amended.  With [1 <= W_step <= T_label], on every state reached from
    [Init] a call of [OnLocalization] either closes nothing and only appends
    the sample to the window, or closes one frame; then the window, sample
    included, held exactly [T_label] samples, exactly the first [W_step] of
    them are evicted, and [T_label - W_step] remain for the next call. *)
Theorem window_slides_by_step fl messages g tr le g' e :
  1 ≤ FLAGS_localization_move_window_step fl
    ≤ FLAGS_learning_data_frame_label_sample_interval fl →
  ProcessOfflineData fl messages (Init fresh_generator) = Some (g, tr) →
  OnLocalization fl le g = Some (g', e) →
  (closed_frames e = []
   ∧ localization_for_label_ g' = localization_for_label_ g ++ [le])
  ∨ (∃ frame, closed_frames e = [frame])
    ∧ Z.of_nat (length (localization_for_label_ g ++ [le]))
      = FLAGS_learning_data_frame_label_sample_interval fl
    ∧ localization_for_label_ g'
      = drop (Z.to_nat (FLAGS_localization_move_window_step fl))
          (localization_for_label_ g ++ [le])
    ∧ Z.of_nat (length (localization_for_label_ g'))
      = FLAGS_learning_data_frame_label_sample_interval fl
        - FLAGS_localization_move_window_step fl.
Proof.
  intros HW Hr Hl.
  pose proof (window_short fl messages g tr HW Hr) as Hshort.
  apply consistent_from_Init in Hr as [[frame Ho] _ _ _ _ _].
  eapply OnLocalization_inv in Hl as (g2 & e1 & e2 & Hlab & Hw & ->); [|done].
  assert (Hw2 : localization_for_label_ g' = localization_for_label_ g2
                ∧ closed_frames e2 = []).
  { by apply write_block_inv in Hw as [(_ & -> & ->)|(_ & -> & ->)]. }
  destruct Hw2 as [-> He2]. rewrite closed_frames_app, He2, app_nil_r.
  apply after_label_block_inv in Hlab
    as [(_ & -> & ->)|(Hlen & labelled & w' & _ & Hpop & -> & ->)]; simpl.
  - by left.
  - right. apply pop_front_times_drop in Hpop as [_ ->].
    rewrite length_drop. rewrite length_app in *. simpl in *.
    split; [by exists labelled|]. repeat split; lia.
Qed.

Lemma window_slides_by_step_witness :
  localization_for_label_ before_close.1 ++ [sample_at 3 origin] = four_samples
  ∧ ((closed_frames at_close.2 = []
      ∧ localization_for_label_ at_close.1
        = localization_for_label_ before_close.1 ++ [sample_at 3 origin])
     ∨ (∃ frame, closed_frames at_close.2 = [frame])
       ∧ Z.of_nat (length (localization_for_label_ before_close.1 ++ [sample_at 3 origin])) = 4
       ∧ localization_for_label_ at_close.1
         = drop (Z.to_nat 2) (localization_for_label_ before_close.1 ++ [sample_at 3 origin])
       ∧ Z.of_nat (length (localization_for_label_ at_close.1)) = 4 - 2).
Proof.
  split; [vm_compute; reflexivity|].
  apply (window_slides_by_step (flags_with 4 3 2 2 true)
           ((OnLocalizationTopic <$> take 2 four_samples)
            ++ [OnChassisTopic (chassis_at 3); OnChassisTopic (chassis_at 5);
                OnLocalizationTopic (sample_at 2 origin)])
           before_close.1 (midway.2 ++ before_close.2) (sample_at 3 origin)
           at_close.1 at_close.2).
  - simpl. lia.
  - vm_compute; reflexivity.
  - vm_compute; reflexivity.
Defined.

(** ** One window, one frame *)

Lemma localizations_of_app m1 m2 :
  localizations_of (m1 ++ m2) = localizations_of m1 ++ localizations_of m2.
Proof. apply omap_app. Qed.

(** A stream with a localization sample in it has a last one. *)
Lemma last_localization messages :
  localizations_of messages ≠ [] →
  ∃ pre le post,
    messages = pre ++ OnLocalizationTopic le :: post
    ∧ localizations_of post = []
    ∧ localizations_of messages = localizations_of pre ++ [le].
Proof.
  induction messages as [|m ms IH] using rev_ind; [done|].
  rewrite localizations_of_app. destruct m as [le|chassis]; simpl.
  - intros _. by exists ms, le, [].
  - rewrite app_nil_r. intros Hne.
    destruct (IH Hne) as (pre & le & post & -> & Hpost & Hloc).
    exists pre, le, (post ++ [OnChassisTopic chassis]).
    rewrite <- app_assoc. split; [done|]. split; [|done].
    rewrite localizations_of_app, Hpost. done.
Qed.

(** While the window stays below the threshold, localization samples only
    pile up in it: no frame closes and the open frame gets no point. *)
Lemma samples_pile_up fl messages : ∀ g frame,
  open_on [] frame g →
  LearningDataFrame.label_trajectory_points frame = [] →
  Z.of_nat (length (localization_for_label_ g) + length (localizations_of messages))
    < FLAGS_learning_data_frame_label_sample_interval fl →
  ∃ g' tr frame',
    ProcessOfflineData fl messages g = Some (g', tr)
    ∧ open_on [] frame' g'
    ∧ LearningDataFrame.label_trajectory_points frame' = []
    ∧ localization_for_label_ g' = localization_for_label_ g ++ localizations_of messages
    ∧ closed_frames tr = [].
Proof.
  induction messages as [|[le|chassis] rest IH]; intros g frame Ho Hpts Hlen.
  - exists g, [], frame. by rewrite app_nil_r.
  - simpl in Hlen. cbn [ProcessOfflineData handle].
    rewrite (OnLocalization_open fl [] frame le g Ho). unfold after_label_block.
    case_decide as Hc; [rewrite length_app in Hc; simpl in Hc; lia|]. simpl.
    rewrite write_block_unfold. simpl.
    set (frame1 := LearningDataFrame.set_localization_feature _ frame).
    case_decide; simpl.
    + match goal with
      | |- context [ProcessOfflineData fl _ ?g0] =>
          destruct (IH g0 LearningDataFrame.empty)
            as (g' & tr & frame' & Hrun & Ho' & Hpts' & Hw' & Hcl')
      end; [done|done|simpl; rewrite length_app; simpl; lia|].
      rewrite Hrun. simpl. eexists g', _, frame'. split; [reflexivity|].
      simpl in Hw'. rewrite <- app_assoc in Hw'. done.
    + match goal with
      | |- context [ProcessOfflineData fl _ ?g0] =>
          destruct (IH g0 frame1)
            as (g' & tr & frame' & Hrun & Ho' & Hpts' & Hw' & Hcl')
      end; [done|done|simpl; rewrite length_app; simpl; lia|].
      rewrite Hrun. simpl. exists g', tr, frame'.
      simpl in Hw'. rewrite <- app_assoc in Hw'. done.
  - simpl in Hlen. cbn [ProcessOfflineData handle].
    rewrite (OnChassis_open _ _ _ _ Ho). simpl.
    match goal with
    | |- context [ProcessOfflineData fl _ ?g0] =>
        destruct (IH g0 (LearningDataFrame.set_chassis_feature
                           (chassis_feature_of chassis) frame))
          as (g' & tr & frame' & Hrun & Ho' & Hpts' & Hw' & Hcl')
    end; [exact (open_on_store _ _ _ _ Ho)|done|done|].
    rewrite Hrun. simpl. by exists g', tr, frame'.
Qed.

(** Chassis samples alone close nothing and write nothing. *)
Lemma chassis_only_run fl messages : ∀ closed frame g,
  open_on closed frame g →
  localizations_of messages = [] →
  ∃ g', ProcessOfflineData fl messages g = Some (g', []).
Proof.
  induction messages as [|[le|chassis] rest IH]; intros closed frame g Ho Hloc.
  - by exists g.
  - done.
  - cbn [ProcessOfflineData handle]. rewrite (OnChassis_open _ _ _ _ Ho). simpl.
    edestruct IH as (g' & ->); [exact (open_on_store _ _ _ _ Ho)|done|].
    by exists g'.
Qed.

(** C1 as stated fails at its edges.  With a threshold of 0 the run of zero
    samples closes no frame.  With a step larger than the threshold the call
    that should close the frame pops an empty list, which is undefined. *)
Lemma no_frame_at_the_edges :
  (Z.of_nat (length (@nil LocalizationEstimate.t))
     = FLAGS_learning_data_frame_label_sample_interval (flags_with 0 100 1 0 true)
   ∧ ProcessOfflineData (flags_with 0 100 1 0 true) (OnLocalizationTopic <$> [])
       (Init fresh_generator)
     = Some (Init fresh_generator, [])
   ∧ closed_frames [] = [])
  ∧ (Z.of_nat (length (take 1 four_samples))
       = FLAGS_learning_data_frame_label_sample_interval (flags_with 1 100 1 2 true)
     ∧ ProcessOfflineData (flags_with 1 100 1 2 true)
         (OnLocalizationTopic <$> take 1 four_samples) (Init fresh_generator)
       = None).
Proof. repeat split; vm_compute; reflexivity. Qed.

(** C1, amended.  With [T_stride >= 1], [T_label >= 1] and
    [W_step <= T_label], a stream fed to a freshly initialised generator in
    which exactly [T_label] localization samples occur (chassis samples may
    come in between) closes exactly one frame.  Its trajectory points are
    those of the samples at positions 0, [T_stride], [2 * T_stride], ... in
    that order, [ceil (T_label / T_stride)] of them. *)
Theorem one_window_one_frame fl messages :
  1 ≤ FLAGS_localization_sample_interval_for_trajectory_point fl →
  1 ≤ FLAGS_learning_data_frame_label_sample_interval fl →
  FLAGS_localization_move_window_step fl
    ≤ FLAGS_learning_data_frame_label_sample_interval fl →
  Z.of_nat (length (localizations_of messages))
    = FLAGS_learning_data_frame_label_sample_interval fl →
  ∃ g tr frame,
    ProcessOfflineData fl messages (Init fresh_generator) = Some (g, tr)
    ∧ closed_frames tr = [frame]
    ∧ (∀ k : nat,
         LearningDataFrame.label_trajectory_points frame !! k
         = trajectory_point_of <$>
             localizations_of messages
               !! (k * Z.to_nat (FLAGS_localization_sample_interval_for_trajectory_point fl))%nat)
    ∧ Z.of_nat (length (LearningDataFrame.label_trajectory_points frame))
      = (FLAGS_learning_data_frame_label_sample_interval fl
         + FLAGS_localization_sample_interval_for_trajectory_point fl - 1)
        / FLAGS_localization_sample_interval_for_trajectory_point fl
    ∧ (Z.of_nat (length (LearningDataFrame.label_trajectory_points frame)) - 1)
        * FLAGS_localization_sample_interval_for_trajectory_point fl
      < FLAGS_learning_data_frame_label_sample_interval fl
      ≤ Z.of_nat (length (LearningDataFrame.label_trajectory_points frame))
        * FLAGS_localization_sample_interval_for_trajectory_point fl.
Proof.
  set (stride := FLAGS_localization_sample_interval_for_trajectory_point fl).
  set (threshold := FLAGS_learning_data_frame_label_sample_interval fl).
  intros Hstride Hthreshold Hstep Hlen.
  destruct (last_localization messages) as (pre & le & post & -> & Hpost & Hsamples).
  { intros Hnil. rewrite Hnil in Hlen. simpl in Hlen. lia. }
  rewrite Hsamples in *. clear Hsamples.
  rewrite length_app in Hlen. simpl in Hlen.
  destruct (samples_pile_up fl pre (Init fresh_generator) LearningDataFrame.empty)
    as (g1 & tr1 & frame1 & Hr1 & Ho1 & Hpts1 & Hw1 & Hcl1).
  { apply (Init_open fresh_generator). }
  { done. }
  { simpl. fold threshold. lia. }
  simpl in Hw1.
  rewrite ProcessOfflineData_app, Hr1. cbn [mbind option_bind ProcessOfflineData handle].
  rewrite (OnLocalization_open fl [] frame1 le g1 Ho1). unfold after_label_block.
  rewrite Hw1. fold threshold.
  case_decide as Hc; [|rewrite length_app in Hc; simpl in Hc; lia].
  rewrite GenerateTrajectoryLabel_defined by (fold stride; lia). fold stride. simpl.
  destruct (pop_front_times (Z.to_nat (FLAGS_localization_move_window_step fl))
              (localizations_of pre ++ [le])) as [w'|] eqn:Hpop.
  2:{ exfalso. destruct (pop_front_times_drop
                 (Z.to_nat (FLAGS_localization_move_window_step fl))
                 (localizations_of pre ++ [le])
                 (drop (Z.to_nat (FLAGS_localization_move_window_step fl))
                    (localizations_of pre ++ [le])))
        as [_ Hex].
      rewrite Hex in Hpop; [done|]. split; [|done]. rewrite length_app. simpl. lia. }
  simpl. rewrite write_block_unfold.
  set (samples := localizations_of pre ++ [le]) in *.
  set (labelled := append_points (trajectory_point_of <$> stride_picks stride 0 samples) _).
  assert (Hpoints : LearningDataFrame.label_trajectory_points labelled
                    = trajectory_point_of <$> stride_picks stride 0 samples).
  { unfold labelled. simpl. by rewrite Hpts1. }
  assert (Hlookup : ∀ k : nat,
            LearningDataFrame.label_trajectory_points labelled !! k
            = trajectory_point_of <$> samples !! (k * Z.to_nat stride)%nat).
  { intros k. rewrite Hpoints, list_lookup_fmap. f_equal.
    change 0 with (0 * stride). apply stride_picks_lookup; lia. }
  assert (Hcount : Z.of_nat (length (LearningDataFrame.label_trajectory_points labelled))
                   = (threshold + stride - 1) / stride).
  { rewrite Hpoints, length_fmap, stride_picks_length by lia.
    unfold samples. rewrite length_app. simpl. do 2 f_equal. lia. }
  assert (Hceil : (Z.of_nat (length (LearningDataFrame.label_trajectory_points labelled)) - 1) * stride
                  < threshold
                    ≤ Z.of_nat (length (LearningDataFrame.label_trajectory_points labelled)) * stride).
  { rewrite Hcount.
    pose proof (Z.div_mod (threshold + stride - 1) stride ltac:(lia)) as Hdm.
    pose proof (Z.mod_pos_bound (threshold + stride - 1) stride ltac:(lia)) as Hmb.
    nia. }
  case_decide; simpl.
  - edestruct (chassis_only_run fl post [] LearningDataFrame.empty) as (g' & ->);
      [by split|done|].
    simpl. eexists _, _, labelled. split; [reflexivity|].
    rewrite !closed_frames_app, Hcl1. simpl. done.
  - edestruct (chassis_only_run fl post [labelled] LearningDataFrame.empty) as (g' & ->);
      [by split|done|].
    simpl. eexists _, _, labelled. split; [reflexivity|].
    rewrite !closed_frames_app, Hcl1. simpl. done.
Qed.

Lemma one_window_one_frame_witness :
  ∃ g tr frame,
    ProcessOfflineData (flags_with 4 3 2 2 true)
      ((OnLocalizationTopic <$> take 2 four_samples)
       ++ OnChassisTopic (chassis_at 5) :: (OnLocalizationTopic <$> drop 2 four_samples))
      (Init fresh_generator) = Some (g, tr)
    ∧ closed_frames tr = [frame]
    ∧ (∀ k : nat,
         LearningDataFrame.label_trajectory_points frame !! k
         = trajectory_point_of <$>
             localizations_of
               ((OnLocalizationTopic <$> take 2 four_samples)
                ++ OnChassisTopic (chassis_at 5)
                :: (OnLocalizationTopic <$> drop 2 four_samples))
               !! (k * Z.to_nat 2)%nat)
    ∧ Z.of_nat (length (LearningDataFrame.label_trajectory_points frame)) = (4 + 2 - 1) / 2
    ∧ (Z.of_nat (length (LearningDataFrame.label_trajectory_points frame)) - 1) * 2
      < 4 ≤ Z.of_nat (length (LearningDataFrame.label_trajectory_points frame)) * 2.
Proof.
  apply (one_window_one_frame (flags_with 4 3 2 2 true)
           ((OnLocalizationTopic <$> take 2 four_samples)
            ++ OnChassisTopic (chassis_at 5)
            :: (OnLocalizationTopic <$> drop 2 four_samples)));
    vm_compute; (reflexivity || discriminate).
Defined.

(** ** Speed and acceleration of a label point *)

(** C5 as stated fails: the sums under the two square roots have no [z]
    term.  A sample moving at (3, 4, 12) and accelerating at (6, 8, 24) gets
    the speed 5 and the acceleration 10, where the norms are 13 and 26. *)
Lemma vertical_components_are_dropped :
  TrajectoryPoint.v (trajectory_point_of climbing_sample) = 5%float
  ∧ sqrt (3 * 3 + 4 * 4 + 12 * 12)%float = 13%float
  ∧ TrajectoryPoint.v (trajectory_point_of climbing_sample)
    ≠ sqrt (Point3D.x (Pose.linear_velocity (LocalizationEstimate.pose climbing_sample))
            * Point3D.x (Pose.linear_velocity (LocalizationEstimate.pose climbing_sample))
            + Point3D.y (Pose.linear_velocity (LocalizationEstimate.pose climbing_sample))
              * Point3D.y (Pose.linear_velocity (LocalizationEstimate.pose climbing_sample))
            + Point3D.z (Pose.linear_velocity (LocalizationEstimate.pose climbing_sample))
              * Point3D.z (Pose.linear_velocity (LocalizationEstimate.pose climbing_sample)))%float
  ∧ TrajectoryPoint.a (trajectory_point_of climbing_sample) = 10%float
  ∧ sqrt (6 * 6 + 8 * 8 + 24 * 24)%float = 26%float
  ∧ TrajectoryPoint.a (trajectory_point_of climbing_sample)
    ≠ sqrt (Point3D.x (Pose.linear_acceleration (LocalizationEstimate.pose climbing_sample))
            * Point3D.x (Pose.linear_acceleration (LocalizationEstimate.pose climbing_sample))
            + Point3D.y (Pose.linear_acceleration (LocalizationEstimate.pose climbing_sample))
              * Point3D.y (Pose.linear_acceleration (LocalizationEstimate.pose climbing_sample))
            + Point3D.z (Pose.linear_acceleration (LocalizationEstimate.pose climbing_sample))
              * Point3D.z (Pose.linear_acceleration (LocalizationEstimate.pose climbing_sample)))%float.
Proof.
  split; [vm_compute; reflexivity|]. split; [vm_compute; reflexivity|]. split.
  { intros E. apply (f_equal (λ x, PrimFloat.eqb x 5)) in E. vm_compute in E. discriminate. }
  split; [vm_compute; reflexivity|]. split; [vm_compute; reflexivity|].
  intros E. apply (f_equal (λ x, PrimFloat.eqb x 10)) in E. vm_compute in E. discriminate.
Qed.

(** C5, amended.  Every point [GenerateTrajectoryLabel] appends is made from
    one sample of the window: its speed is the square root of the sum of the
    squares of the [x] and [y] components of that sample's linear velocity,
    its acceleration likewise from the linear acceleration, and its path point
    is the sample's position and heading.  The [z] components of velocity and
    acceleration are not read. *)
Theorem label_point_speed_is_planar fl window frame labelled :
  GenerateTrajectoryLabel fl window frame = Some labelled →
  ∃ added,
    LearningDataFrame.label_trajectory_points labelled
    = LearningDataFrame.label_trajectory_points frame ++ added
    ∧ Forall
        (λ pt, ∃ le,
           le ∈ window
           ∧ TrajectoryPoint.v pt
             = sqrt (Point3D.x (Pose.linear_velocity (LocalizationEstimate.pose le))
                     * Point3D.x (Pose.linear_velocity (LocalizationEstimate.pose le))
                     + Point3D.y (Pose.linear_velocity (LocalizationEstimate.pose le))
                       * Point3D.y (Pose.linear_velocity (LocalizationEstimate.pose le)))%float
           ∧ TrajectoryPoint.a pt
             = sqrt (Point3D.x (Pose.linear_acceleration (LocalizationEstimate.pose le))
                     * Point3D.x (Pose.linear_acceleration (LocalizationEstimate.pose le))
                     + Point3D.y (Pose.linear_acceleration (LocalizationEstimate.pose le))
                       * Point3D.y (Pose.linear_acceleration (LocalizationEstimate.pose le)))%float
           ∧ TrajectoryPoint.path_point pt
             = PathPoint.mk (Point3D.x (Pose.position (LocalizationEstimate.pose le)))
                 (Point3D.y (Pose.position (LocalizationEstimate.pose le)))
                 (Point3D.z (Pose.position (LocalizationEstimate.pose le)))
                 (Pose.heading (LocalizationEstimate.pose le)))
        added.
Proof.
  intros Hgen. apply GenerateTrajectoryLabel_Some in Hgen as (picked & -> & Hin & _).
  exists (trajectory_point_of <$> picked). split; [done|].
  apply Forall_fmap, Forall_forall. intros le Hle. exists le. split; [by apply Hin|done].
Qed.

Lemma label_point_speed_is_planar_witness :
  GenerateTrajectoryLabel (flags_with 4 3 2 2 true) [climbing_sample] LearningDataFrame.empty
    = Some (LearningDataFrame.mk None None [trajectory_point_of climbing_sample])
  ∧ TrajectoryPoint.v (trajectory_point_of climbing_sample) = 5%float
  ∧ ∃ added,
      [trajectory_point_of climbing_sample] = [] ++ added
      ∧ Forall
          (λ pt, ∃ le,
             le ∈ [climbing_sample]
             ∧ TrajectoryPoint.v pt
               = sqrt (Point3D.x (Pose.linear_velocity (LocalizationEstimate.pose le))
                       * Point3D.x (Pose.linear_velocity (LocalizationEstimate.pose le))
                       + Point3D.y (Pose.linear_velocity (LocalizationEstimate.pose le))
                         * Point3D.y (Pose.linear_velocity (LocalizationEstimate.pose le)))%float
             ∧ TrajectoryPoint.a pt
               = sqrt (Point3D.x (Pose.linear_acceleration (LocalizationEstimate.pose le))
                       * Point3D.x (Pose.linear_acceleration (LocalizationEstimate.pose le))
                       + Point3D.y (Pose.linear_acceleration (LocalizationEstimate.pose le))
                         * Point3D.y (Pose.linear_acceleration (LocalizationEstimate.pose le)))%float
             ∧ TrajectoryPoint.path_point pt
               = PathPoint.mk (Point3D.x (Pose.position (LocalizationEstimate.pose le)))
                   (Point3D.y (Pose.position (LocalizationEstimate.pose le)))
                   (Point3D.z (Pose.position (LocalizationEstimate.pose le)))
                   (Pose.heading (LocalizationEstimate.pose le)))
          added.
Proof.
  split; [vm_compute; reflexivity|]. split; [vm_compute; reflexivity|].
  apply (label_point_speed_is_planar (flags_with 4 3 2 2 true) [climbing_sample]
           LearningDataFrame.empty
           (LearningDataFrame.mk None None [trajectory_point_of climbing_sample])).
  vm_compute; reflexivity.
Defined.

(** * Beyond the claims

    ** Following a stream message by message *)

Lemma ProcessOfflineData_snoc fl ms m g0 g' tr' :
  ProcessOfflineData fl (ms ++ [m]) g0 = Some (g', tr') →
  ∃ g tr e,
    ProcessOfflineData fl ms g0 = Some (g, tr)
    ∧ handle fl m g = Some (g', e)
    ∧ tr' = tr ++ e.
Proof.
  rewrite ProcessOfflineData_app.
  destruct (ProcessOfflineData fl ms g0) as [[g tr]|]; [|done]. simpl.
  destruct (handle fl m g) as [[g1 e]|] eqn:Hh; [|done]. simpl.
  rewrite app_nil_r. intros [= <- <-]. by exists g, tr, e.
Qed.

(** Induction over a stream fed to a fresh generator, one message at the
    end at a time. *)
Lemma stream_ind fl (P : list Message → FeatureGenerator → list Effect → Prop) :
  P [] (Init fresh_generator) [] →
  (∀ ms g tr m g' e,
     ProcessOfflineData fl ms (Init fresh_generator) = Some (g, tr) →
     P ms g tr → handle fl m g = Some (g', e) → P (ms ++ [m]) g' (tr ++ e)) →
  ∀ ms g tr,
    ProcessOfflineData fl ms (Init fresh_generator) = Some (g, tr) → P ms g tr.
Proof.
  intros H0 Hstep ms. induction ms as [|m ms IH] using rev_ind; intros g tr Hr.
  - injection Hr as <- <-. done.
  - apply ProcessOfflineData_snoc in Hr as (g1 & tr1 & e & Hr1 & Hh & ->).
    eapply Hstep; [done| |done]. by apply IH.
Qed.

Lemma localizations_of_snoc ms m :
  localizations_of (ms ++ [m])
  = localizations_of ms ++ match m with
                           | OnLocalizationTopic le => [le]
                           | OnChassisTopic _ => []
                           end.
Proof. rewrite localizations_of_app. by destruct m. Qed.

(** What a stream leaves behind, whatever the flags: the window is the
    stream of localization samples without those evicted so far, the frame
    that is open has no trajectory point yet, and a frame has closed only if
    the samples reached the threshold. *)
Lemma stream_shape fl ms g tr :
  ProcessOfflineData fl ms (Init fresh_generator) = Some (g, tr) →
  (Z.to_nat (FLAGS_localization_move_window_step fl) * length (closed_frames tr)
   ≤ length (localizations_of ms))%nat
  ∧ localization_for_label_ g
    = drop (Z.to_nat (FLAGS_localization_move_window_step fl) * length (closed_frames tr))
        (localizations_of ms)
  ∧ (∃ frame, last (learning_data_ g) = Some frame
              ∧ LearningDataFrame.label_trajectory_points frame = [])
  ∧ (closed_frames tr = []
     ∨ FLAGS_learning_data_frame_label_sample_interval fl
       + Z.of_nat (Z.to_nat (FLAGS_localization_move_window_step fl)
                   * (length (closed_frames tr) - 1))
       ≤ Z.of_nat (length (localizations_of ms))).
Proof.
  revert ms g tr. apply stream_ind.
  { simpl. split; [lia|]. split; [by rewrite Nat.mul_0_r|]. split; [by eexists|by left]. }
  intros ms g tr m g' e Hr (Hle & Hwin & (frame0 & Hlast & Hpts) & Hlow) Hh.
  apply consistent_from_Init in Hr as [[frame Ho] _ _ _ _ _].
  assert (frame0 = frame) as ->.
  { destruct Ho as [Hb _]. rewrite Hb, last_snoc in Hlast. congruence. }
  set (w := Z.to_nat (FLAGS_localization_move_window_step fl)) in *.
  rewrite localizations_of_snoc, closed_frames_app.
  destruct m as [le|chassis]; simpl in Hh.
  - eapply OnLocalization_inv in Hh as (g2 & e1 & e2 & Hlab & Hw & ->); [|done].
    assert (Hw2 : localization_for_label_ g' = localization_for_label_ g2
                  ∧ closed_frames e2 = []
                  ∧ (e2 = [] ∧ learning_data_ g' = learning_data_ g2
                     ∨ learning_data_ g' = [LearningDataFrame.empty])).
    { apply write_block_inv in Hw as [(_ & -> & ->)|(_ & -> & ->)]; simpl; eauto. }
    destruct Hw2 as (-> & He2 & Hbatch).
    rewrite closed_frames_app, He2, app_nil_r.
    apply after_label_block_inv in Hlab
      as [(_ & -> & ->)|(Hlen & labelled & w' & _ & Hpop & -> & ->)]; simpl in *.
    + rewrite app_nil_r, length_app. simpl. split; [lia|].
      split; [by rewrite Hwin, drop_app_le|]. split.
      * destruct Hbatch as [[_ ->]| ->]; [|by eexists]. rewrite last_snoc. by eexists.
      * destruct Hlow as [->|Hlow]; [by left|right; lia].
    + assert (Hwl : length (localization_for_label_ g)
                    = (length (localizations_of ms) - w * length (closed_frames tr))%nat)
        by (by rewrite Hwin, length_drop).
      apply pop_front_times_drop in Hpop as [Hpop ->]. fold w in Hpop |- *.
      rewrite Hwin in Hpop |- *. rewrite <- drop_app_le in Hpop |- * by done.
      rewrite length_drop in Hpop. rewrite !length_app in *. simpl in *.
      rewrite drop_drop.
      replace (w * (length (closed_frames tr) + 1))%nat
        with (w * length (closed_frames tr) + w)%nat by lia.
      split; [lia|]. split; [done|]. split.
      * destruct Hbatch as [[_ ->]| ->]; [|by eexists].
        change (pending tr ++ [?a; ?b]) with (pending tr ++ [a] ++ [b]).
        rewrite (assoc_L (++)), last_snoc. by eexists.
      * right.
        replace (length (closed_frames tr) + 1 - 1)%nat
          with (length (closed_frames tr)) by lia.
        lia.
  - rewrite (OnChassis_open _ _ _ _ Ho) in Hh. injection Hh as <- <-.
    rewrite !app_nil_r. simpl. split; [done|]. split; [done|]. split; [|done].
    destruct Ho as [Hb _]. rewrite Hb, insert_last, last_snoc. by eexists.
Qed.

(** ** The window over the stream *)

(** X1.  Whatever the flags, after a stream that ran to its end the window
    is the sequence of the stream's localization samples, in their order,
    without its first [W_step * k] elements, [k] being the number of frames
    closed so far ([W_step] counted as 0 when negative).  In particular with
    [W_step <= 0] the window keeps every sample. *)
Theorem window_is_the_stream_minus_evictions fl ms g tr :
  ProcessOfflineData fl ms (Init fresh_generator) = Some (g, tr) →
  localization_for_label_ g
  = drop (Z.to_nat (FLAGS_localization_move_window_step fl) * length (closed_frames tr))
      (localizations_of ms)
  ∧ (Z.to_nat (FLAGS_localization_move_window_step fl) * length (closed_frames tr)
     ≤ length (localizations_of ms))%nat
  ∧ localization_for_label_ g `suffix_of` localizations_of ms
  ∧ (FLAGS_localization_move_window_step fl ≤ 0 →
     localization_for_label_ g = localizations_of ms).
Proof.
  intros Hr. destruct (stream_shape fl ms g tr Hr) as (Hle & Hwin & _ & _).
  split; [done|]. split; [done|]. split.
  - rewrite Hwin. apply suffix_drop.
  - intros HW. rewrite Hwin. by replace (Z.to_nat _) with 0%nat by lia.
Qed.

Lemma window_is_the_stream_minus_evictions_witness :
  ProcessOfflineData (flags_with 4 10 2 2 true)
    ((OnLocalizationTopic <$> take 2 seven_samples)
     ++ OnChassisTopic (chassis_at 5) :: (OnLocalizationTopic <$> drop 2 seven_samples))
    (Init fresh_generator) = Some seven_fed
  ∧ length (closed_frames seven_fed.2) = 2%nat
  ∧ localization_for_label_ seven_fed.1 = drop 4 seven_samples
  ∧ localization_for_label_ seven_fed.1
    = drop (Z.to_nat 2 * length (closed_frames seven_fed.2))
        (localizations_of
           ((OnLocalizationTopic <$> take 2 seven_samples)
            ++ OnChassisTopic (chassis_at 5)
            :: (OnLocalizationTopic <$> drop 2 seven_samples))).
Proof.
  do 3 (split; [vm_compute; reflexivity|]).
  apply (window_is_the_stream_minus_evictions (flags_with 4 10 2 2 true)
           ((OnLocalizationTopic <$> take 2 seven_samples)
            ++ OnChassisTopic (chassis_at 5)
            :: (OnLocalizationTopic <$> drop 2 seven_samples))
           seven_fed.1 seven_fed.2).
  vm_compute; reflexivity.
Defined.

(** X2.  With [1 <= W_step <= T_label], the number of frames a stream has
    closed depends only on the number [n] of its localization samples: none
    while [n < T_label], and [(n - T_label) / W_step + 1] from then on.
    Chassis samples and the number of frames per file play no part. *)
Theorem frames_closed_by_sample_count fl ms g tr :
  1 ≤ FLAGS_localization_move_window_step fl
    ≤ FLAGS_learning_data_frame_label_sample_interval fl →
  ProcessOfflineData fl ms (Init fresh_generator) = Some (g, tr) →
  (Z.of_nat (length (localizations_of ms))
     < FLAGS_learning_data_frame_label_sample_interval fl
   ∧ closed_frames tr = [])
  ∨ (FLAGS_learning_data_frame_label_sample_interval fl
       ≤ Z.of_nat (length (localizations_of ms))
     ∧ Z.of_nat (length (closed_frames tr))
       = (Z.of_nat (length (localizations_of ms))
          - FLAGS_learning_data_frame_label_sample_interval fl)
         / FLAGS_localization_move_window_step fl + 1).
Proof.
  intros HW Hr.
  pose proof (window_short fl ms g tr HW Hr) as Hshort.
  destruct (stream_shape fl ms g tr Hr) as (Hle & Hwin & _ & Hlow).
  rewrite Hwin, length_drop in Hshort.
  set (w := Z.to_nat (FLAGS_localization_move_window_step fl)) in *.
  set (n := length (localizations_of ms)) in *.
  destruct Hlow as [Hnil|Hlow].
  - left. rewrite Hnil in *. simpl in *. split; [lia|done].
  - right. set (k := length (closed_frames tr)) in *.
    assert (Hk : (1 ≤ k)%nat).
    { destruct (closed_frames tr) eqn:Hc; simpl in *; [|lia]. unfold k in *. simpl in *.
      lia. }
    split; [lia|].
    assert (Hq : (Z.of_nat n - FLAGS_learning_data_frame_label_sample_interval fl)
                 / FLAGS_localization_move_window_step fl = Z.of_nat k - 1); [|lia].
    symmetry.
    apply Z.div_unique
      with (Z.of_nat n - FLAGS_learning_data_frame_label_sample_interval fl
            - FLAGS_localization_move_window_step fl * (Z.of_nat k - 1)); nia.
Qed.

Lemma frames_closed_by_sample_count_witness :
  (Z.of_nat (length (localizations_of
                       ((OnLocalizationTopic <$> take 2 seven_samples)
                        ++ OnChassisTopic (chassis_at 5)
                        :: (OnLocalizationTopic <$> drop 2 seven_samples)))) < 4
   ∧ closed_frames seven_fed.2 = [])
  ∨ (4 ≤ Z.of_nat (length (localizations_of
                             ((OnLocalizationTopic <$> take 2 seven_samples)
                              ++ OnChassisTopic (chassis_at 5)
                              :: (OnLocalizationTopic <$> drop 2 seven_samples))))
     ∧ Z.of_nat (length (closed_frames seven_fed.2))
       = (Z.of_nat (length (localizations_of
                              ((OnLocalizationTopic <$> take 2 seven_samples)
                               ++ OnChassisTopic (chassis_at 5)
                               :: (OnLocalizationTopic <$> drop 2 seven_samples)))) - 4)
         / 2 + 1).
Proof.
  apply (frames_closed_by_sample_count (flags_with 4 10 2 2 true)
           ((OnLocalizationTopic <$> take 2 seven_samples)
            ++ OnChassisTopic (chassis_at 5)
            :: (OnLocalizationTopic <$> drop 2 seven_samples))
           seven_fed.1 seven_fed.2).
  - simpl. lia.
  - vm_compute; reflexivity.
Defined.

(** A frame number [j] has closed only when the stream holds the whole of
    its window. *)
Lemma frames_closed_by_count_bound fl ms g tr (j : nat) :
  1 ≤ FLAGS_localization_move_window_step fl
    ≤ FLAGS_learning_data_frame_label_sample_interval fl →
  ProcessOfflineData fl ms (Init fresh_generator) = Some (g, tr) →
  (j < length (closed_frames tr))%nat →
  (Z.to_nat (FLAGS_localization_move_window_step fl) * j
   + Z.to_nat (FLAGS_learning_data_frame_label_sample_interval fl)
   ≤ length (localizations_of ms))%nat.
Proof.
  intros HW Hr Hj. destruct (stream_shape fl ms g tr Hr) as (_ & _ & _ & Hlow).
  destruct Hlow as [Hnil|Hlow]; [rewrite Hnil in Hj; simpl in Hj; lia|].
  assert (Z.to_nat (FLAGS_localization_move_window_step fl) * j
          ≤ Z.to_nat (FLAGS_localization_move_window_step fl)
            * (length (closed_frames tr) - 1))%nat
    by (apply Nat.mul_le_mono_l; lia).
  lia.
Qed.

(** ** Every frame of a stream *)

(** With [1 <= W_step <= T_label] and a positive sampling interval, the
    [j]-th frame closed holds the points selected from the [T_label] samples
    that follow the first [j * W_step], and the localization feature of the
    last of them. *)
Lemma frames_invariant fl ms g tr :
  1 ≤ FLAGS_localization_sample_interval_for_trajectory_point fl →
  1 ≤ FLAGS_localization_move_window_step fl
    ≤ FLAGS_learning_data_frame_label_sample_interval fl →
  ProcessOfflineData fl ms (Init fresh_generator) = Some (g, tr) →
  ∀ (j : nat) frame,
    closed_frames tr !! j = Some frame →
    LearningDataFrame.label_trajectory_points frame
    = trajectory_point_of <$>
        stride_picks (FLAGS_localization_sample_interval_for_trajectory_point fl) 0
          (take (Z.to_nat (FLAGS_learning_data_frame_label_sample_interval fl))
             (drop (Z.to_nat (FLAGS_localization_move_window_step fl) * j)
                (localizations_of ms)))
    ∧ LearningDataFrame.localization_feature frame
      = localization_feature_of <$>
          localizations_of ms
            !! (Z.to_nat (FLAGS_learning_data_frame_label_sample_interval fl)
                + Z.to_nat (FLAGS_localization_move_window_step fl) * j - 1)%nat.
Proof.
  intros HS HW. revert ms g tr.
  set (P := λ (ms : list Message) (_ : FeatureGenerator) (tr : list Effect),
         ∀ (j : nat) frame,
           closed_frames tr !! j = Some frame →
    LearningDataFrame.label_trajectory_points frame
    = trajectory_point_of <$>
        stride_picks (FLAGS_localization_sample_interval_for_trajectory_point fl) 0
          (take (Z.to_nat (FLAGS_learning_data_frame_label_sample_interval fl))
             (drop (Z.to_nat (FLAGS_localization_move_window_step fl) * j)
                (localizations_of ms)))
    ∧ LearningDataFrame.localization_feature frame
      = localization_feature_of <$>
          localizations_of ms
            !! (Z.to_nat (FLAGS_learning_data_frame_label_sample_interval fl)
                + Z.to_nat (FLAGS_localization_move_window_step fl) * j - 1)%nat).
  change (∀ ms g tr,
            ProcessOfflineData fl ms (Init fresh_generator) = Some (g, tr) → P ms g tr).
  apply stream_ind; unfold P; [done|].
  intros ms g tr m g' e Hr IH Hh j frame Hj.
  pose proof (window_short fl ms g tr HW Hr) as Hshort.
  destruct (stream_shape fl ms g tr Hr) as (Hle & Hwin & (frame0 & Hlast & Hpts) & Hlow).
  apply consistent_from_Init in Hr as [[open Ho] _ _ _ _ _].
  assert (frame0 = open) as ->.
  { destruct Ho as [Hb _]. rewrite Hb, last_snoc in Hlast. congruence. }
  set (w := Z.to_nat (FLAGS_localization_move_window_step fl)) in *.
  set (T := Z.to_nat (FLAGS_learning_data_frame_label_sample_interval fl)) in *.
  set (n := length (localizations_of ms)) in *.
  set (k := length (closed_frames tr)) in *.
  assert (Hold : ∀ extra, (j < k)%nat →
            take T (drop (w * j) (localizations_of ms ++ extra))
            = take T (drop (w * j) (localizations_of ms))
            ∧ (localizations_of ms ++ extra) !! (T + w * j - 1)%nat
              = localizations_of ms !! (T + w * j - 1)%nat).
  { intros extra Hjk. destruct Hlow as [Hnil|Hlow]; [unfold k in Hjk; rewrite Hnil in Hjk; simpl in Hjk; lia|].
    fold k in Hlow. fold n in Hlow.
    assert (w * j ≤ w * (k - 1))%nat by (apply Nat.mul_le_mono_l; lia).
    split.
    - rewrite drop_app_le by (fold n; lia).
      apply take_app_le. rewrite length_drop. fold n. lia.
    - apply lookup_app_l. fold n. lia. }
  rewrite localizations_of_snoc. rewrite closed_frames_app in Hj.
  destruct m as [le|chassis]; simpl in Hh.
  - eapply OnLocalization_inv in Hh as (g2 & e1 & e2 & Hlab & Hw & ->); [|done].
    assert (He2 : closed_frames e2 = []).
    { by apply write_block_inv in Hw as [(_ & -> & _)|(_ & -> & _)]. }
    rewrite closed_frames_app, He2, app_nil_r in Hj.
    apply after_label_block_inv in Hlab
      as [(_ & -> & _)|(Hlen & labelled & w' & Hgen & _ & -> & _)]; simpl in Hj.
    + rewrite app_nil_r in Hj.
      destruct (Hold [le]) as [-> ->]; [by eapply lookup_lt_Some|]. by apply IH.
    + apply lookup_app_Some in Hj as [Hj|[Hge Hj]].
      * destruct (Hold [le]) as [-> ->]; [by eapply lookup_lt_Some|]. by apply IH.
      * apply list_lookup_singleton_Some in Hj as [Hz <-]. fold k in Hge, Hz.
        assert (j = k) as -> by lia.
        rewrite GenerateTrajectoryLabel_defined in Hgen by lia.
        injection Hgen as <-.
        rewrite Hwin, length_app, length_drop in Hlen. simpl in Hlen. fold n k in Hlen.
        rewrite Hwin, length_drop in Hshort. fold n k in Hshort.
        rewrite Hwin, <- drop_app_le by done. simpl. rewrite Hpts. simpl.
        rewrite take_ge by (rewrite length_drop, length_app; simpl; fold n; lia).
        split; [done|].
        replace (T + w * k - 1)%nat with (n + 0)%nat by lia.
        by rewrite lookup_app_r, Nat.add_0_r, Nat.sub_diag by (fold n; lia).
  - rewrite (OnChassis_open _ _ _ _ Ho) in Hh. injection Hh as <- <-.
    simpl in Hj. rewrite !app_nil_r in *. by apply IH.
Qed.

(** X3.  With [T_stride >= 1] and [1 <= W_step <= T_label], the frame closed
    as number [j] (counting from 0) of a stream is labelled from the window
    that starts at sample [j * W_step]: its [i]-th trajectory point is the
    point of sample [j * W_step + i * T_stride], for every [i] with
    [i * T_stride < T_label], and it has no other point; its localization
    feature is that of sample [j * W_step + T_label - 1], the one that closed
    it.  Consecutive frames so share [T_label - W_step] samples. *)
Theorem labels_of_every_frame fl ms g tr (j : nat) frame :
  1 ≤ FLAGS_localization_sample_interval_for_trajectory_point fl →
  1 ≤ FLAGS_localization_move_window_step fl
    ≤ FLAGS_learning_data_frame_label_sample_interval fl →
  ProcessOfflineData fl ms (Init fresh_generator) = Some (g, tr) →
  closed_frames tr !! j = Some frame →
  (∀ i : nat,
     LearningDataFrame.label_trajectory_points frame !! i
     = if decide (Z.of_nat i * FLAGS_localization_sample_interval_for_trajectory_point fl
                  < FLAGS_learning_data_frame_label_sample_interval fl)
       then trajectory_point_of <$>
              localizations_of ms
                !! (Z.to_nat (FLAGS_localization_move_window_step fl) * j
                    + i * Z.to_nat (FLAGS_localization_sample_interval_for_trajectory_point fl))%nat
       else None)
  ∧ LearningDataFrame.localization_feature frame
    = localization_feature_of <$>
        localizations_of ms
          !! (Z.to_nat (FLAGS_localization_move_window_step fl) * j
              + Z.to_nat (FLAGS_learning_data_frame_label_sample_interval fl) - 1)%nat
  ∧ is_Some (LearningDataFrame.localization_feature frame)
  ∧ is_Some (LearningDataFrame.label_trajectory_points frame !! 0%nat).
Proof.
  intros HS HW Hr Hj.
  destruct (frames_invariant fl ms g tr HS HW Hr j frame Hj) as [Hpts Hfeat].
  pose proof (frames_closed_by_count_bound fl ms g tr j HW Hr
                (lookup_lt_Some _ _ _ Hj)) as Hlong.
  assert (Hlookup : ∀ i : nat,
     LearningDataFrame.label_trajectory_points frame !! i
     = if decide (Z.of_nat i * FLAGS_localization_sample_interval_for_trajectory_point fl
                  < FLAGS_learning_data_frame_label_sample_interval fl)
       then trajectory_point_of <$>
              localizations_of ms
                !! (Z.to_nat (FLAGS_localization_move_window_step fl) * j
                    + i * Z.to_nat (FLAGS_localization_sample_interval_for_trajectory_point fl))%nat
       else None).
  { intros i. rewrite Hpts, list_lookup_fmap.
    change 0 with (0 * FLAGS_localization_sample_interval_for_trajectory_point fl).
    rewrite stride_picks_lookup by lia. rewrite lookup_take, lookup_drop.
    case_decide; case_decide; try done; exfalso; nia. }
  split; [done|]. split; [|split].
  - rewrite Hfeat. do 2 f_equal. lia.
  - rewrite Hfeat. apply fmap_is_Some, lookup_lt_is_Some. lia.
  - rewrite Hlookup. rewrite decide_True by lia.
    apply fmap_is_Some, lookup_lt_is_Some. lia.
Qed.

Lemma labels_of_every_frame_witness :
  closed_frames seven_fed.2 !! 1%nat
    = Some (default LearningDataFrame.empty (closed_frames seven_fed.2 !! 1%nat))
  ∧ LearningDataFrame.label_trajectory_points
      (default LearningDataFrame.empty (closed_frames seven_fed.2 !! 1%nat))
    = [trajectory_point_of (sample_at 2 origin); trajectory_point_of (sample_at 4 origin)]
  ∧ (∀ i : nat,
       LearningDataFrame.label_trajectory_points
         (default LearningDataFrame.empty (closed_frames seven_fed.2 !! 1%nat)) !! i
       = if decide (Z.of_nat i * 2 < 4)
         then trajectory_point_of <$>
                localizations_of
                  ((OnLocalizationTopic <$> take 2 seven_samples)
                   ++ OnChassisTopic (chassis_at 5)
                   :: (OnLocalizationTopic <$> drop 2 seven_samples))
                  !! (Z.to_nat 2 * 1 + i * Z.to_nat 2)%nat
         else None)
  ∧ LearningDataFrame.localization_feature
      (default LearningDataFrame.empty (closed_frames seven_fed.2 !! 1%nat))
    = localization_feature_of <$>
        localizations_of
          ((OnLocalizationTopic <$> take 2 seven_samples)
           ++ OnChassisTopic (chassis_at 5)
           :: (OnLocalizationTopic <$> drop 2 seven_samples))
          !! (Z.to_nat 2 * 1 + Z.to_nat 4 - 1)%nat
  ∧ is_Some (LearningDataFrame.localization_feature
               (default LearningDataFrame.empty (closed_frames seven_fed.2 !! 1%nat)))
  ∧ is_Some (LearningDataFrame.label_trajectory_points
               (default LearningDataFrame.empty (closed_frames seven_fed.2 !! 1%nat))
               !! 0%nat).
Proof.
  do 2 (split; [vm_compute; reflexivity|]).
  apply (labels_of_every_frame (flags_with 4 10 2 2 true)
           ((OnLocalizationTopic <$> take 2 seven_samples)
            ++ OnChassisTopic (chassis_at 5)
            :: (OnLocalizationTopic <$> drop 2 seven_samples))
           seven_fed.1 seven_fed.2 1).
  - simpl. lia.
  - simpl. lia.
  - vm_compute; reflexivity.
  - vm_compute; reflexivity.
Defined.


(** ** One call that closes or writes *)



(** ** When a stream runs to its end *)

(** X5.  With a sampling interval other than 0 and a step no larger than the
    threshold, no stream reaches anything undefined: every message is
    handled, the empty list is never popped and no remainder by zero is
    taken, so the stream and the [Close] after it deliver a state, and at
    least the file [Close] writes. *)
Theorem a_stream_runs_to_its_end fl ms :
  FLAGS_localization_sample_interval_for_trajectory_point fl ≠ 0 →
  FLAGS_localization_move_window_step fl
    ≤ FLAGS_learning_data_frame_label_sample_interval fl →
  ∃ g tr g' tr',
    ProcessOfflineData fl ms (Init fresh_generator) = Some (g, tr)
    ∧ pipeline fl ms = Some (g', tr')
    ∧ tr `prefix_of` tr'
    ∧ written_files tr' ≠ [].
Proof.
  intros HS HW. destruct (ProcessOfflineData_defined fl ms HS HW) as (g & tr & Hr).
  exists g, tr, (Close fl g).1, (tr ++ (Close fl g).2).
  split; [done|]. unfold pipeline. rewrite Hr. simpl. split; [done|].
  split; [by apply prefix_app_r|].
  rewrite written_files_app. unfold Close. rewrite WriteOutLearningData_effect. simpl.
  by destruct (written_files tr).
Qed.

Lemma a_stream_runs_to_its_end_witness :
  ∃ g tr g' tr',
    ProcessOfflineData default_flags (OnLocalizationTopic <$> seven_samples)
      (Init fresh_generator) = Some (g, tr)
    ∧ pipeline default_flags (OnLocalizationTopic <$> seven_samples) = Some (g', tr')
    ∧ tr `prefix_of` tr'
    ∧ written_files tr' ≠ [].
Proof.
  apply (a_stream_runs_to_its_end default_flags (OnLocalizationTopic <$> seven_samples));
    vm_compute; discriminate.
Defined.

Lemma nth_localization (n : nat) : ∀ ms,
  (n < length (localizations_of ms))%nat →
  ∃ pre le post,
    ms = pre ++ OnLocalizationTopic le :: post ∧ length (localizations_of pre) = n.
Proof.
  induction n as [n IH] using lt_wf_ind. intros ms.
  induction ms as [|[le|chassis] rest IHms]; simpl; intros Hn; [lia| |].
  - destruct n as [|n'].
    + by exists [], le, rest.
    + destruct (IH n' ltac:(lia) rest) as (pre & le' & post & -> & Hlen); [lia|].
      exists (OnLocalizationTopic le :: pre), le', post. simpl. by rewrite Hlen.
  - destruct (IHms Hn) as (pre & le' & post & -> & Hlen).
    by exists (OnChassisTopic chassis :: pre), le', post.
Qed.

(** X6.  With a threshold of at least 1, a sampling interval of 0 or a step
    larger than the threshold makes the call that fills the window for the
    first time undefined (a remainder by zero at line 87, a [pop_front] on
    the emptied list at line 127): no stream with [T_label] or more
    localization samples runs to its end. *)
Theorem undefined_once_the_window_fills fl ms :
  1 ≤ FLAGS_learning_data_frame_label_sample_interval fl →
  FLAGS_localization_sample_interval_for_trajectory_point fl = 0
  ∨ FLAGS_learning_data_frame_label_sample_interval fl
    < FLAGS_localization_move_window_step fl →
  FLAGS_learning_data_frame_label_sample_interval fl
    ≤ Z.of_nat (length (localizations_of ms)) →
  ProcessOfflineData fl ms (Init fresh_generator) = None.
Proof.
  intros HT Hbad Hlong.
  destruct (nth_localization
              (Z.to_nat (FLAGS_learning_data_frame_label_sample_interval fl) - 1) ms)
    as (pre & le & post & -> & Hpre); [lia|].
  destruct (samples_pile_up fl pre (Init fresh_generator) LearningDataFrame.empty)
    as (g1 & tr1 & frame1 & Hr1 & Ho1 & _ & Hw1 & _).
  { apply (Init_open fresh_generator). }
  { done. }
  { simpl. lia. }
  simpl in Hw1.
  rewrite ProcessOfflineData_app, Hr1. cbn [mbind option_bind ProcessOfflineData handle].
  rewrite (OnLocalization_open fl [] frame1 le g1 Ho1). unfold after_label_block.
  rewrite Hw1.
  case_decide as Hc; [|rewrite length_app in Hc; simpl in Hc; lia].
  destruct Hbad as [Hzero|Hstep].
  - unfold GenerateTrajectoryLabel. rewrite Hzero.
    destruct (localizations_of pre ++ [le]) as [|x rest] eqn:Hw;
      [by destruct (localizations_of pre)|].
    by rewrite label_loop_zero.
  - destruct (GenerateTrajectoryLabel _ _ _) as [labelled|]; [|done]. simpl.
    destruct (pop_front_times _ _) as [w'|] eqn:Hpop; [|done].
    apply pop_front_times_drop in Hpop as [Hpop _].
    rewrite length_app in Hpop. simpl in Hpop. lia.
Qed.

Lemma undefined_once_the_window_fills_witness :
  ProcessOfflineData (flags_with 4 10 0 2 true) (OnLocalizationTopic <$> four_samples)
    (Init fresh_generator) = None.
Proof.
  apply (undefined_once_the_window_fills (flags_with 4 10 0 2 true)
           (OnLocalizationTopic <$> four_samples)).
  - simpl. lia.
  - left. reflexivity.
  - vm_compute. discriminate.
Defined.

(** ** What the object holds between calls *)

(** X7.  With [1 <= W_step <= T_label] and [F_max >= 2], however long the
    stream, between two calls the window holds fewer than [T_label] samples
    and the batch fewer than [F_max] frames. *)
Theorem memory_is_bounded fl ms g tr :
  1 ≤ FLAGS_localization_move_window_step fl
    ≤ FLAGS_learning_data_frame_label_sample_interval fl →
  2 ≤ FLAGS_learning_data_frame_num_per_file fl →
  ProcessOfflineData fl ms (Init fresh_generator) = Some (g, tr) →
  Z.of_nat (length (localization_for_label_ g))
    < FLAGS_learning_data_frame_label_sample_interval fl
  ∧ 1 ≤ Z.of_nat (length (learning_data_ g))
      < FLAGS_learning_data_frame_num_per_file fl.
Proof.
  intros HW HF Hr. split; [by eapply window_short|].
  destruct (rotation fl ms g tr HF Hr) as (_ & Hshort & _).
  apply consistent_from_Init in Hr as [[frame [Hb _]] _ _ _ _ _].
  rewrite Hb, length_app. simpl. lia.
Qed.

Lemma memory_is_bounded_witness :
  Z.of_nat (length (localization_for_label_ seven_fed.1)) < 4
  ∧ 1 ≤ Z.of_nat (length (learning_data_ seven_fed.1)) < 10.
Proof.
  apply (memory_is_bounded (flags_with 4 10 2 2 true)
           ((OnLocalizationTopic <$> take 2 seven_samples)
            ++ OnChassisTopic (chassis_at 5)
            :: (OnLocalizationTopic <$> drop 2 seven_samples))
           seven_fed.1 seven_fed.2).
  - simpl. lia.
  - simpl. lia.
  - vm_compute; reflexivity.
Defined.

(** X8.  On a state with an open frame, a call of [OnLocalization] closes at
    most one frame and writes at most one file, in that order; no error is
    logged.  A file written in a call that closed a frame holds that frame
    just before its last entry, the frame newly opened. *)
Theorem at_most_one_close_and_one_write fl closed frame le g g' e :
  open_on closed frame g →
  OnLocalization fl le g = Some (g', e) →
  e = []
  ∨ (∃ f, e = [FrameClosed f])
  ∨ (∃ b n d, e = [WriteFile b n d])
  ∨ (∃ f b n d, e = [FrameClosed f; WriteFile b n d]
                ∧ d = closed ++ [f; LearningDataFrame.empty]).
Proof.
  intros Ho Hl.
  eapply OnLocalization_inv in Hl as (g2 & e1 & e2 & Hlab & Hw & ->); [|done].
  apply after_label_block_inv in Hlab
    as [(_ & -> & ->)|(_ & labelled & w' & _ & _ & -> & ->)];
    apply write_block_inv in Hw as [(_ & -> & ->)|(_ & -> & ->)]; simpl.
  - by left.
  - right. right. left. by eexists _, _, _.
  - right. left. by eexists.
  - right. right. right. by eexists _, _, _, _.
Qed.

Lemma at_most_one_close_and_one_write_witness :
  at_close.2 = []
  ∨ (∃ f, at_close.2 = [FrameClosed f])
  ∨ (∃ b n d, at_close.2 = [WriteFile b n d])
  ∨ (∃ f b n d, at_close.2 = [FrameClosed f; WriteFile b n d]
                ∧ d = [] ++ [f; LearningDataFrame.empty]).
Proof.
  apply (at_most_one_close_and_one_write (flags_with 4 3 2 2 true) []
           (default LearningDataFrame.empty (learning_data_ before_close.1 !! 0%nat))
           (sample_at 3 origin) before_close.1 at_close.1 at_close.2).
  - split; vm_compute; reflexivity.
  - vm_compute; reflexivity.
Defined.

(** ** The sampling interval *)

Lemma label_loop_opp interval ls : ∀ i frame,
  label_loop (- interval) i ls frame = label_loop interval i ls frame.
Proof.
  induction ls as [|le rest IH]; intros i frame; simpl; [done|].
  rewrite Z.rem_opp_r'.
  replace (- interval =? 0) with (interval =? 0)
    by (destruct (Z.eqb_spec interval 0), (Z.eqb_spec (- interval) 0); lia).
  destruct (interval =? 0); [done|].
  destruct (Z.rem (i + 1) interval =? 0); simpl; apply IH.
Qed.

(** X9.  Only the size of the sampling interval counts, not its sign: C++'s
    remainder of a non-negative index is 0 for [-s] exactly when it is for
    [s], so two settings that differ in the sign of the interval label every
    window alike. *)
Theorem sign_of_the_interval_is_ignored fl fl' window frame :
  FLAGS_localization_sample_interval_for_trajectory_point fl'
    = - FLAGS_localization_sample_interval_for_trajectory_point fl →
  GenerateTrajectoryLabel fl' window frame = GenerateTrajectoryLabel fl window frame.
Proof.
  intros Hopp. unfold GenerateTrajectoryLabel. rewrite Hopp. apply label_loop_opp.
Qed.

Lemma sign_of_the_interval_is_ignored_witness :
  GenerateTrajectoryLabel (flags_with 4 3 (-2) 2 true) four_samples LearningDataFrame.empty
  = GenerateTrajectoryLabel (flags_with 4 3 2 2 true) four_samples LearningDataFrame.empty.
Proof.
  apply (sign_of_the_interval_is_ignored (flags_with 4 3 2 2 true)
           (flags_with 4 3 (-2) 2 true) four_samples LearningDataFrame.empty).
  reflexivity.
Defined.

(** ** Reading records *)

Lemma read_messages_decoded env fl messages : ∀ g,
  Reader.read_messages env fl messages g
  = ProcessOfflineData fl (omap (Reader.decode env) messages) g.
Proof.
  induction messages as [|message rest IH]; intros g; simpl; [done|].
  unfold Reader.on_message, Reader.decode.
  destruct (decide (Reader.channel_name message = Reader.FLAGS_localization_topic env)).
  - destruct (Reader.ParseLocalization env (Reader.content message)) as [localization|];
      simpl.
    + destruct (OnLocalization fl localization g) as [[g1 e1]|]; [|done]. simpl.
      by rewrite IH.
    + rewrite IH. by destruct (ProcessOfflineData fl _ g) as [[g2 e2]|].
  - destruct (decide (Reader.channel_name message = Reader.FLAGS_chassis_topic env)).
    + destruct (Reader.ParseChassis env (Reader.content message)) as [chassis|]; simpl.
      * destruct (OnChassis chassis g) as [[g1 e1]|]; [|done]. simpl. by rewrite IH.
      * rewrite IH. by destruct (ProcessOfflineData fl _ g) as [[g2 e2]|].
    + simpl. rewrite IH. by destruct (ProcessOfflineData fl _ g) as [[g2 e2]|].
Qed.

(** X10.  [ProcessOfflineData] on a record that cannot be opened logs one
    error and leaves the object as it was.  On a record that opens it does
    what feeding the handlers the decoded messages does, in the order of the
    record: messages on the localization topic that parse go to
    [OnLocalization], messages on the chassis topic (when that is another
    topic) that parse go to [OnChassis], and every other message is passed
    over. *)
Theorem reading_a_record env fl record_filename g :
  Reader.ProcessOfflineData env fl record_filename g
  = match Reader.open_record env record_filename with
    | None => Some (g, [LogError ("Fail to open " +:+ record_filename)])
    | Some messages => ProcessOfflineData fl (omap (Reader.decode env) messages) g
    end.
Proof.
  unfold Reader.ProcessOfflineData.
  destruct (Reader.open_record env record_filename); [|done].
  apply read_messages_decoded.
Qed.

(** X11.  A message of the record that is on neither topic, or that is on
    the localization topic and does not parse, or on the chassis topic alone
    and does not parse, leaves no trace: the outcome is that of the record
    without it. *)
Theorem unusable_messages_leave_no_trace env fl before message after g :
  (Reader.channel_name message ≠ Reader.FLAGS_localization_topic env
   ∧ Reader.channel_name message ≠ Reader.FLAGS_chassis_topic env)
  ∨ (Reader.channel_name message = Reader.FLAGS_localization_topic env
     ∧ Reader.ParseLocalization env (Reader.content message) = None)
  ∨ (Reader.channel_name message ≠ Reader.FLAGS_localization_topic env
     ∧ Reader.ParseChassis env (Reader.content message) = None) →
  Reader.read_messages env fl (before ++ message :: after) g
  = Reader.read_messages env fl (before ++ after) g.
Proof.
  intros Hskip. rewrite !read_messages_decoded, !omap_app. simpl.
  replace (Reader.decode env message) with (@None Message); [done|].
  unfold Reader.decode.
  destruct Hskip as [[Hl Hc]|[[Hl Hp]|[Hl Hp]]].
  - by rewrite !decide_False.
  - by rewrite decide_True, Hp.
  - rewrite decide_False by done. case_decide; [by rewrite Hp|done].
Qed.

Lemma unusable_messages_leave_no_trace_witness :
  Reader.read_messages example_env (flags_with 4 3 2 2 true)
    ([Reader.mkRecordMessage "/apollo/localization/pose" "0"]
     ++ Reader.mkRecordMessage "/apollo/perception/obstacles" "0"
     :: [Reader.mkRecordMessage "/apollo/localization/pose" "1"])
    (Init fresh_generator)
  = Reader.read_messages example_env (flags_with 4 3 2 2 true)
      ([Reader.mkRecordMessage "/apollo/localization/pose" "0"]
       ++ [Reader.mkRecordMessage "/apollo/localization/pose" "1"])
      (Init fresh_generator).
Proof.
  apply (unusable_messages_leave_no_trace example_env (flags_with 4 3 2 2 true)
           [Reader.mkRecordMessage "/apollo/localization/pose" "0"]
           (Reader.mkRecordMessage "/apollo/perception/obstacles" "0")
           [Reader.mkRecordMessage "/apollo/localization/pose" "1"]
           (Init fresh_generator)).
  left. split; vm_compute; discriminate.
Defined.

(** X12.  Reading one record after another on the same object does what
    reading a single record with the messages of both does: the window, the
    open frame and the batch carry over from one record to the next. *)
Theorem records_read_in_sequence env fl first second both ms1 ms2 g :
  Reader.open_record env first = Some ms1 →
  Reader.open_record env second = Some ms2 →
  Reader.open_record env both = Some (ms1 ++ ms2) →
  ('(g1, e1) ← Reader.ProcessOfflineData env fl first g;
   '(g2, e2) ← Reader.ProcessOfflineData env fl second g1;
   Some (g2, e1 ++ e2))
  = Reader.ProcessOfflineData env fl both g.
Proof.
  intros H1 H2 H12. unfold Reader.ProcessOfflineData. rewrite H1, H12.
  rewrite !read_messages_decoded, omap_app, ProcessOfflineData_app.
  destruct (ProcessOfflineData fl _ g) as [[g1 e1]|]; [|done]. simpl.
  by rewrite H2, read_messages_decoded.
Qed.

Lemma records_read_in_sequence_witness :
  ('(g1, e1) ← Reader.ProcessOfflineData example_env (flags_with 4 3 2 2 true)
                 "a.record" (Init fresh_generator);
   '(g2, e2) ← Reader.ProcessOfflineData example_env (flags_with 4 3 2 2 true)
                 "b.record" g1;
   Some (g2, e1 ++ e2))
  = Reader.ProcessOfflineData example_env (flags_with 4 3 2 2 true) "ab.record"
      (Init fresh_generator).
Proof.
  apply (records_read_in_sequence example_env (flags_with 4 3 2 2 true)
           "a.record" "b.record" "ab.record"
           [Reader.mkRecordMessage "/apollo/localization/pose" "0";
            Reader.mkRecordMessage "/apollo/perception/obstacles" "0";
            Reader.mkRecordMessage "/apollo/localization/pose" "1";
            Reader.mkRecordMessage "/apollo/localization/pose" "garbled"]
           [Reader.mkRecordMessage "/apollo/canbus/chassis" "5";
            Reader.mkRecordMessage "/apollo/localization/pose" "2";
            Reader.mkRecordMessage "/apollo/localization/pose" "3"]
           (Init fresh_generator)); vm_compute; reflexivity.
Defined.
